(** * OpenFang: the browser bridge and the single-shot agent SDK

    A shallow embedding of
      - crates/openfang-runtime/src/browser_bridge.py
        (main, handle_command, extract_readable, respond), and
      - sdk/python/openfang_sdk.py (read_input, respond, log, Agent.run),
    with the properties of their line protocols.

    Python values are an inductive type, Python strings are lists of code
    points, exceptions are an explicit result type, and the Playwright
    objects (pw, browser, context, page) are an interface whose operations
    transform an abstract session state.  Every call made on that interface
    is recorded, so that "no browser operation" is a statement about the
    record of calls.  The exceptions of the model are the instances of
    Python's [Exception], which is what [except Exception] catches and what
    json and Playwright raise; writing to the standard streams succeeds. *)

From Stdlib Require Import List ZArith NArith Bool Ascii String Lia.
From Stdlib Require Import DecimalString DecimalPos DecimalN.
From Stdlib Require Floats.SpecFloat.
Import ListNotations.

Set Implicit Arguments.
Set Warnings "-register-all".
Local Open Scope list_scope.

(* ================================================================== *)
(** ** Python strings *)

Module PyStr.

(** A Python [str] is a sequence of Unicode code points. *)
Definition codepoint := N.
Definition pystr := list codepoint.

(** An ASCII literal of the source, as a Python string. *)
Definition py (s : string) : pystr :=
  List.map N_of_ascii (list_ascii_of_string s).

(** [len(s)] *)
Definition len (s : pystr) : N := N.of_nat (List.length s).

(** [s[:n]] for a non-negative [n] *)
Definition slice_to (n : N) (s : pystr) : pystr := firstn (N.to_nat n) s.

(** [a == b] on strings *)
Fixpoint eqb (a b : pystr) : bool :=
  match a, b with
  | [], [] => true
  | x :: a', y :: b' => N.eqb x y && eqb a' b'
  | _, _ => false
  end.

(** [str(n)] for a non-negative integer: its decimal digits. *)
Definition of_N (n : N) : pystr := py (NilZero.string_of_uint (N.to_uint n)).

(** Reading a string of decimal digits back ([int(s)]); [None] when [s] is
    not such a string. *)
Definition to_N (s : pystr) : option N :=
  option_map N.of_uint
    (NilZero.uint_of_string (string_of_list_ascii (List.map ascii_of_N s))).

(** [str(z)] for an integer. *)
Definition of_Z (z : Z) : pystr :=
  match z with
  | Zneg p => py "-" ++ of_N (Npos p)
  | _ => of_N (Z.to_N z)
  end.

(** The characters [str.strip()] removes: CPython's [Py_UNICODE_ISSPACE]. *)
Definition isspace (c : codepoint) : bool :=
  ((9 <=? c) && (c <=? 13) || (28 <=? c) && (c <=? 32)
   || (c =? 133) || (c =? 160) || (c =? 5760)
   || (8192 <=? c) && (c <=? 8202)
   || (c =? 8232) || (c =? 8233) || (c =? 8239) || (c =? 8287)
   || (c =? 12288))%N.

Fixpoint lstrip (s : pystr) : pystr :=
  match s with
  | [] => []
  | c :: s' => if isspace c then lstrip s' else s
  end.

Definition rstrip (s : pystr) : pystr := rev (lstrip (rev s)).

(** [s.strip()] *)
Definition strip (s : pystr) : pystr := rstrip (lstrip s).

(** [s.upper()] on the ASCII letters (the levels given to [log] are ASCII). *)
Definition upper (s : pystr) : pystr :=
  List.map (fun c => if ((97 <=? c) && (c <=? 122))%N then (c - 32)%N else c) s.

End PyStr.

Import PyStr.

(* ================================================================== *)
(** ** Python values and exceptions *)

(** An object that is neither a JSON value nor a dict, as far as the code
    observes it: the name of its type, [str(o)] and [bool(o)].  [json.dumps]
    raises [TypeError] on it. *)
Record pyobject := {
  obj_type : pystr;
  obj_str : pystr;
  obj_truthy : bool
}.

(** The values the two programs handle: what [json.loads] produces (dicts
    keyed by strings, in insertion order), and other objects. *)
Inductive pyval :=
| PNone
| PBool (b : bool)
| PInt (z : Z)
| PFloat (f : SpecFloat.spec_float)
| PStr (s : pystr)
| PList (l : list pyval)
| PDict (d : list (pystr * pyval))
| PObject (o : pyobject).

(** An exception instance: [type(e).__name__] and [str(e)]. *)
Record exn := {
  exc_type : pystr;
  exc_msg : pystr
}.

(** The outcome of an expression or a call. *)
Inductive result (A : Type) :=
| Ok (a : A)
| Raise (e : exn).

Arguments Ok {A} a.
Arguments Raise {A} e.

(** [bool(v)], as [not v] and [if v:] use it. *)
Definition truthy (v : pyval) : bool :=
  match v with
  | PNone => false
  | PBool b => b
  | PInt z => negb (Z.eqb z 0)
  | PFloat (SpecFloat.S754_zero _) => false
  | PFloat _ => true
  | PStr s => match s with [] => false | _ => true end
  | PList l => match l with [] => false | _ => true end
  | PDict d => match d with [] => false | _ => true end
  | PObject o => obj_truthy o
  end.

(** [v == s] for a string literal [s]: only a [str] equals a [str]. *)
Definition eq_str (v : pyval) (s : pystr) : bool :=
  match v with
  | PStr t => PyStr.eqb t s
  | _ => false
  end.

(** [type(v).__name__] *)
Definition type_name (v : pyval) : pystr :=
  match v with
  | PNone => py "NoneType"
  | PBool _ => py "bool"
  | PInt _ => py "int"
  | PFloat _ => py "float"
  | PStr _ => py "str"
  | PList _ => py "list"
  | PDict _ => py "dict"
  | PObject o => obj_type o
  end.

(** Lookup in a dict: the entry of key [k]. *)
Fixpoint dict_lookup (k : pystr) (d : list (pystr * pyval)) : option pyval :=
  match d with
  | [] => None
  | (k', v) :: d' => if PyStr.eqb k' k then Some v else dict_lookup k d'
  end.

(** [del d[k]] *)
Fixpoint dict_remove (k : pystr) (d : list (pystr * pyval))
  : list (pystr * pyval) :=
  match d with
  | [] => []
  | (k', v) :: d' =>
      if PyStr.eqb k' k then dict_remove k d' else (k', v) :: dict_remove k d'
  end.

(** [d[k] = v] on a dict literal being built: a key that is there keeps its
    place, a new key goes last. *)
Fixpoint dict_set (k : pystr) (v : pyval) (d : list (pystr * pyval))
  : list (pystr * pyval) :=
  match d with
  | [] => [(k, v)]
  | (k', v') :: d' =>
      if PyStr.eqb k' k then (k, v) :: d' else (k', v') :: dict_set k v d'
  end.

(** [AttributeError] of [v.get] on a value without that method. *)
Definition attribute_error (v : pyval) (attr : pystr) : exn :=
  {| exc_type := py "AttributeError";
     exc_msg := py "'" ++ type_name v ++ py "' object has no attribute '"
                ++ attr ++ py "'" |}.

(** [v.get(k, default)]: defined on dicts, [AttributeError] elsewhere. *)
Definition py_get (v : pyval) (k : pystr) (default : pyval) : result pyval :=
  match v with
  | PDict d =>
      match dict_lookup k d with
      | Some x => Ok x
      | None => Ok default
      end
  | _ => Raise (attribute_error v (py "get"))
  end.

(** The first object inside [v] that [json.dumps] cannot encode, in the
    order the encoder visits the value. *)
Fixpoint unserialisable (v : pyval) : option pyobject :=
  match v with
  | PObject o => Some o
  | PList l =>
      (fix in_list (l : list pyval) : option pyobject :=
         match l with
         | [] => None
         | x :: l' =>
             match unserialisable x with
             | Some o => Some o
             | None => in_list l'
             end
         end) l
  | PDict d =>
      (fix in_dict (d : list (pystr * pyval)) : option pyobject :=
         match d with
         | [] => None
         | (_, x) :: d' =>
             match unserialisable x with
             | Some o => Some o
             | None => in_dict d'
             end
         end) d
  | _ => None
  end.

(** [json.dumps(v)] either yields one line of text for [v] or raises
    [TypeError]; the model keeps the encoded value itself as the line. *)
Definition json_dumps (v : pyval) : result pyval :=
  match unserialisable v with
  | None => Ok v
  | Some o =>
      Raise {| exc_type := py "TypeError";
               exc_msg := py "Object of type " ++ obj_type o
                          ++ py " is not JSON serializable" |}
  end.

(** The functions of Python's library the programs call and the model does
    not define: the JSON decoder, base64 and [str()] of the values that are
    not strings, integers, booleans, None or opaque objects. *)
Class PyLib := {
  json_loads : pystr -> result pyval;
  b64encode : list N -> pystr;
  repr_other : pyval -> pystr
}.

(** [str(v)], which is also what an f-string writes for [{v}]. *)
Definition py_str `{PyLib} (v : pyval) : pystr :=
  match v with
  | PStr s => s
  | PNone => py "None"
  | PBool true => py "True"
  | PBool false => py "False"
  | PInt z => PyStr.of_Z z
  | PObject o => obj_str o
  | _ => repr_other v
  end.

(* ================================================================== *)
(** ** The Playwright interface *)

(** The calls the bridge makes on the Playwright objects, indexed by the
    type of what they return. *)
Inductive call : Type -> Type :=
| Start : call unit                                   (* sync_playwright().start() *)
| Launch (headless : bool) : call unit                (* pw.chromium.launch *)
| NewContext (width height : Z) (user_agent : pystr) : call unit
| NewPage : call unit                                 (* context.new_page() *)
| SetDefaultTimeout (ms : Z) : call unit
| SetDefaultNavigationTimeout (ms : Z) : call unit
| Goto (url : pyval) (wait_until : pystr) (timeout : Z) : call unit
| Title : call pystr                                  (* page.title() *)
| Url : call pystr                                    (* page.url *)
| Click (selector : pyval) (timeout : Z) : call unit  (* page.click *)
| ClickText (text : pyval) (timeout : Z) : call unit
    (* page.get_by_text(text, exact=False).first.click *)
| WaitForLoadState (state : pystr) (timeout : Z) : call unit
| Fill (selector text : pyval) (timeout : Z) : call unit
| Screenshot (full_page : bool) : call (list N)
| EvaluateReadable : call pystr
    (* page.evaluate of the extraction script, which returns a string *)
| InnerText (selector : pystr) : call pystr
| ContextClose : call unit                            (* context.close() *)
| BrowserClose : call unit                            (* browser.close() *)
| Stop : call unit.                                   (* pw.stop() *)

(** A call that was made, whatever it returned. *)
Inductive event :=
| Called {A : Type} (c : call A).

(** The driver: each call returns or raises, and moves the session (the
    browser, its context and its page) to a new state. *)
Class Playwright (Session : Type) := {
  perform : forall A, call A -> Session -> result A * Session
}.

(* ================================================================== *)
(** ** The bridge: crates/openfang-runtime/src/browser_bridge.py *)

Module Bridge.

Section BridgeDefs.

Context {lib : PyLib} {Session : Type} {drv : Playwright Session}.

(** What the bridge process acts on: the session, the calls made on the
    driver so far, and the lines written to standard output so far. *)
Record world := {
  session : Session;
  calls : list event;
  stdout : list pyval
}.

(** A computation of the bridge: it returns or raises, and changes the
    world. *)
Definition M (A : Type) : Type := world -> result A * world.

Definition ret {A} (a : A) : M A := fun w => (Ok a, w).

Definition raise {A} (e : exn) : M A := fun w => (Raise e, w).

Definition bind {A B} (m : M A) (k : A -> M B) : M B :=
  fun w =>
    match m w with
    | (Ok a, w') => k a w'
    | (Raise e, w') => (Raise e, w')
    end.

(** [try: m except Exception as e: handler(e)] *)
Definition try_except {A} (m : M A) (handler : exn -> M A) : M A :=
  fun w =>
    match m w with
    | (Ok a, w') => (Ok a, w')
    | (Raise e, w') => handler e w'
    end.

(** An expression of the library, which does not touch the world. *)
Definition lift {A} (r : result A) : M A := fun w => (r, w).

(** One call on the driver. *)
Definition invoke {A} (c : call A) : M A :=
  fun w =>
    let (r, s') := perform c (session w) in
    (r, {| session := s'; calls := calls w ++ [Called c]; stdout := stdout w |}).

Notation "x <- m ;; k" := (bind m (fun x => k))
  (at level 61, m at next level, right associativity).
Notation "m ;;; k" := (bind m (fun _ => k))
  (at level 61, right associativity).

(** [{"success": True, "data": data}] *)
Definition success (data : list (pystr * pyval)) : pyval :=
  PDict [(py "success", PBool true); (py "data", PDict data)].

(** [{"success": False, "error": msg}] *)
Definition failure (msg : pystr) : pyval :=
  PDict [(py "success", PBool false); (py "error", PStr msg)].

(** [respond]: one JSON line on standard output, flushed. *)
Definition respond (data : pyval) : M unit :=
  line <- lift (json_dumps data) ;;
  fun w =>
    (Ok tt, {| session := session w; calls := calls w;
               stdout := stdout w ++ [line] |}).

(** The marker of a truncation: two newlines, then [Truncated], an em dash
    (U+2014) and [n total chars], between square brackets. *)
Definition truncation_marker (n : N) : pystr :=
  [10; 10]%N ++ py "[Truncated " ++ [8212%N] ++ py " " ++ PyStr.of_N n
  ++ py " total chars]".

(** [extract_readable] *)
Definition extract_readable : M pystr :=
  try_except
    (content <- invoke EvaluateReadable ;;
     let max_chars := 50000%N in
     ret (if (max_chars <? len content)%N
          then slice_to max_chars content ++ truncation_marker (len content)
          else content))
    (fun _ =>
       try_except
         (text <- invoke (InnerText (py "body")) ;;
          ret (if (50000 <? len text)%N
               then slice_to 50000 text ++ truncation_marker (len text)
               else text))
         (fun _ => ret (py "(could not extract page content)"))).

(** [handle_command] *)
Definition handle_command (action cmd : pyval) (timeout_ms : Z) : M pyval :=
  if eq_str action (py "Navigate") then
    url <- lift (py_get cmd (py "url") (PStr [])) ;;
    if negb (truthy url) then
      ret (failure (py "Missing 'url' parameter"))
    else
      invoke (Goto url (py "domcontentloaded") timeout_ms) ;;;
      title <- invoke Title ;;
      content <- extract_readable ;;
      url' <- invoke Url ;;
      ret (success [(py "title", PStr title); (py "url", PStr url');
                    (py "content", PStr content)])
  else if eq_str action (py "Click") then
    selector <- lift (py_get cmd (py "selector") (PStr [])) ;;
    if negb (truthy selector) then
      ret (failure (py "Missing 'selector' parameter"))
    else
      try_except (invoke (Click selector timeout_ms))
                 (fun _ => invoke (ClickText selector timeout_ms)) ;;;
      invoke (WaitForLoadState (py "domcontentloaded") timeout_ms) ;;;
      title <- invoke Title ;;
      url' <- invoke Url ;;
      ret (success [(py "clicked", selector); (py "title", PStr title);
                    (py "url", PStr url')])
  else if eq_str action (py "Type") then
    selector <- lift (py_get cmd (py "selector") (PStr [])) ;;
    text <- lift (py_get cmd (py "text") (PStr [])) ;;
    if negb (truthy selector) then
      ret (failure (py "Missing 'selector' parameter"))
    else if negb (truthy text) then
      ret (failure (py "Missing 'text' parameter"))
    else
      invoke (Fill selector text timeout_ms) ;;;
      ret (success [(py "typed", text); (py "selector", selector)])
  else if eq_str action (py "Screenshot") then
    screenshot_bytes <- invoke (Screenshot false) ;;
    let b64 := b64encode screenshot_bytes in
    url' <- invoke Url ;;
    ret (success [(py "image_base64", PStr b64); (py "format", PStr (py "png"));
                  (py "url", PStr url')])
  else if eq_str action (py "ReadPage") then
    title <- invoke Title ;;
    content <- extract_readable ;;
    url' <- invoke Url ;;
    ret (success [(py "title", PStr title); (py "url", PStr url');
                  (py "content", PStr content)])
  else if eq_str action (py "Close") then
    ret (success [(py "status", PStr (py "closed"))])
  else
    ret (failure (py "Unknown action: " ++ py_str action)).

(** The response of the [except Exception as e] clause of the loop:
    [f"{type(e).__name__}: {e}"]. *)
Definition exception_response (e : exn) : pyval :=
  failure (exc_type e ++ py ": " ++ exc_msg e).

(** The body of the loop for one line that is not blank (the [try] statement
    of [main]).  It returns the value of the local [action] after the
    statement: [None] until [cmd.get] has returned, whatever happens later. *)
Definition process_line (timeout_ms : Z) (line : pystr) : M pyval :=
  let on_exception (action : pyval) (e : exn) : M pyval :=
    respond (exception_response e) ;;; ret action in
  match json_loads line with
  | Raise e => on_exception PNone e
  | Ok cmd =>
      match py_get cmd (py "action") (PStr []) with
      | Raise e => on_exception PNone e
      | Ok action =>
          try_except
            (result <- handle_command action cmd timeout_ms ;;
             respond result ;;;
             ret action)
            (on_exception action)
      end
  end.

(** [for line in sys.stdin: ...] over the lines standard input holds.  The
    lines the loop has not read when it ends are returned. *)
Fixpoint read_loop (timeout_ms : Z) (stdin : list pystr) : M (list pystr) :=
  match stdin with
  | [] => ret []
  | raw :: rest =>
      let line := strip raw in
      match line with
      | [] => read_loop timeout_ms rest
      | _ :: _ =>
          action <- process_line timeout_ms line ;;
          if eq_str action (py "Close") then ret rest
          else read_loop timeout_ms rest
      end
  end.

(** The [# Cleanup] block of [main]. *)
Definition cleanup : M unit :=
  try_except
    (invoke ContextClose ;;;
     invoke BrowserClose ;;;
     invoke Stop)
    (fun _ => ret tt).

(** The command line, as argparse reads it. *)
Record args := {
  headless : bool;
  width : Z;
  height : Z;
  timeout : Z
}.

(** The defaults of the parser. *)
Definition default_args : args :=
  {| headless := true; width := 1280; height := 720; timeout := 30 |}.

Definition user_agent : pystr :=
  py "Mozilla/5.0 (Windows NT 10.0; Win64; x64) AppleWebKit/537.36 (KHTML, like Gecko) Chrome/120.0.0.0 Safari/537.36".

(** The start of the session in [main]: the driver, the browser, its
    context and its page, and the two default timeouts. *)
Definition startup (a : args) : M unit :=
  let timeout_ms := (timeout a * 1000)%Z in
  invoke Start ;;;
  invoke (Launch (headless a)) ;;;
  invoke (NewContext (width a) (height a) user_agent) ;;;
  invoke NewPage ;;;
  invoke (SetDefaultTimeout timeout_ms) ;;;
  invoke (SetDefaultNavigationTimeout timeout_ms).

(** [main].  [installed] tells whether [playwright.sync_api] can be
    imported; the lines of input the loop left unread are returned. *)
Definition main (a : args) (installed : bool) (stdin : list pystr)
  : M (list pystr) :=
  let timeout_ms := (timeout a * 1000)%Z in
  if negb installed then
    respond (failure (py "playwright not installed. Run: pip install playwright && playwright install chromium")) ;;;
    ret stdin
  else
    startup a ;;;
    respond (success [(py "status", PStr (py "ready"))]) ;;;
    unread <- read_loop timeout_ms stdin ;;
    cleanup ;;;
    ret unread.

End BridgeDefs.

Arguments world Session : clear implicits.
Arguments M Session A : clear implicits.

End Bridge.

(* ================================================================== *)
(** ** The agent SDK: sdk/python/openfang_sdk.py *)

Module Sdk.

(** How a statement ends: it completes, it raises an [Exception], or
    [sys.exit] was called ([SystemExit], which [except Exception] does not
    catch and which ends the process with that status). *)
Inductive outcome (A : Type) :=
| Done (a : A)
| Raised (e : exn)
| Exited (status : Z).

Arguments Done {A} a.
Arguments Raised {A} e.
Arguments Exited {A} status.

(** What the agent process is given: the first line of standard input (empty
    at end of file) and the environment variables. *)
Record environment := {
  stdin_line : pystr;
  environ : pystr -> option pystr
}.

(** What the agent process has written: the JSON lines on standard output
    and the lines on standard error. *)
Record output := {
  stdout : list pyval;
  stderr : list pystr
}.

(** The callables registered on an agent.  A handler maps the message and
    the context to what it returns or raises; the setup and teardown
    functions take no argument, so each is what its call returns or raises. *)
Record Agent := {
  _handler : option (pyval -> pyval -> result pyval);
  _setup : option (result unit);
  _teardown : option (result unit)
}.

Section SdkDefs.

Context {lib : PyLib}.

Definition M (A : Type) : Type := output -> outcome A * output.

Definition ret {A} (a : A) : M A := fun o => (Done a, o).

Definition bind {A B} (m : M A) (k : A -> M B) : M B :=
  fun o =>
    match m o with
    | (Done a, o') => k a o'
    | (Raised e, o') => (Raised e, o')
    | (Exited n, o') => (Exited n, o')
    end.

Definition lift {A} (r : result A) : M A :=
  fun o =>
    match r with
    | Ok a => (Done a, o)
    | Raise e => (Raised e, o)
    end.

(** [sys.exit(n)] *)
Definition sys_exit {A} (n : Z) : M A := fun o => (Exited n, o).

(** [try: m except Exception as e: handler(e)] *)
Definition try_except {A} (m : M A) (handler : exn -> M A) : M A :=
  fun o =>
    match m o with
    | (Raised e, o') => handler e o'
    | r => r
    end.

(** [try: m finally: final]: [final] runs however [m] ends, and [m]'s ending
    stands unless [final] itself raises or exits. *)
Definition try_finally {A} (m : M A) (final : M unit) : M A :=
  fun o =>
    let (r, o') := m o in
    match final o' with
    | (Done _, o'') => (r, o'')
    | (Raised e, o'') => (Raised e, o'')
    | (Exited n, o'') => (Exited n, o'')
    end.

Notation "x <- m ;; k" := (bind m (fun x => k))
  (at level 61, m at next level, right associativity).
Notation "m ;;; k" := (bind m (fun _ => k))
  (at level 61, right associativity).

(** [read_input] *)
Definition read_input (env : environment) : M pyval :=
  let line := strip (stdin_line env) in
  match line with
  | [] =>
      let getenv k := match environ env k with Some v => v | None => [] end in
      let agent_id := getenv (py "OPENFANG_AGENT_ID") in
      let message := getenv (py "OPENFANG_MESSAGE") in
      ret (PDict [(py "type", PStr (py "message"));
                  (py "agent_id", PStr agent_id);
                  (py "message", PStr message);
                  (py "context", PDict [])])
  | _ :: _ => lift (json_loads line)
  end.

(** [respond(text, metadata)]; [metadata] defaults to [None]. *)
Definition respond (text : pyval) (metadata : pyval) : M unit :=
  let response := [(py "type", PStr (py "response")); (py "text", text)] in
  let response :=
    if truthy metadata then dict_set (py "metadata") metadata response
    else response in
  line <- lift (json_dumps (PDict response)) ;;
  fun o => (Done tt, {| stdout := stdout o ++ [line]; stderr := stderr o |}).

(** [log(message, level)] *)
Definition log (message level : pystr) : M unit :=
  fun o =>
    (Done tt,
     {| stdout := stdout o;
        stderr := stderr o ++ [py "[" ++ upper level ++ py "] " ++ message] |}).

(** The response to what the handler returned (the [isinstance] chain of
    [run]). *)
Definition respond_result (result : pyval) : M unit :=
  match result with
  | PStr _ => respond result PNone
  | PDict _ =>
      let default := PStr (py_str result) in
      text <- lift (py_get result (py "text") default) ;;
      metadata <- lift (py_get result (py "metadata") PNone) ;;
      respond text metadata
  | _ => respond (PStr (py_str result)) PNone
  end.

(** The [except Exception as e] clause of [run]. *)
Definition on_error (e : exn) : M unit :=
  log (py "Agent error: " ++ exc_msg e) (py "error") ;;;
  respond (PStr (py "Error: " ++ exc_msg e)) PNone ;;;
  sys_exit 1.

(** The [finally] clause of [run]. *)
Definition on_exit (self : Agent) : M unit :=
  match _teardown self with
  | Some teardown =>
      try_except (lift teardown)
        (fun e => log (py "Teardown error: " ++ exc_msg e) (py "error"))
  | None => ret tt
  end.

(** [Agent.run] *)
Definition run (self : Agent) (env : environment) : M unit :=
  match _handler self with
  | None =>
      log (py "No message handler registered") (py "error") ;;;
      sys_exit 1
  | Some handler =>
      try_finally
        (try_except
           (match _setup self with
            | Some setup => lift setup
            | None => ret tt
            end ;;;
            data <- read_input env ;;
            message <- lift (py_get data (py "message") (PStr [])) ;;
            context <- lift (py_get data (py "context") (PDict [])) ;;
            result <- lift (handler message context) ;;
            respond_result result)
           on_error)
        (on_exit self)
  end.

(** What the handler is called with: the message and the context that [run]
    takes from the input, when the setup function and the reading of the
    input complete. *)
Definition handler_input (self : Agent) (env : environment)
  : M (pyval * pyval) :=
  match _setup self with
  | Some setup => lift setup
  | None => ret tt
  end ;;;
  data <- read_input env ;;
  message <- lift (py_get data (py "message") (PStr [])) ;;
  context <- lift (py_get data (py "context") (PDict [])) ;;
  ret (message, context).

End SdkDefs.

End Sdk.

(* ================================================================== *)
(** ** The vocabulary of the properties *)

Module Protocol.

Import Bridge.

(** The six actions of the protocol. *)
Definition actions : list pystr :=
  [py "Navigate"; py "Click"; py "Type"; py "Screenshot"; py "ReadPage";
   py "Close"].

(** The fields an action requires, in the order the dispatcher checks
    them. *)
Definition required_fields (action : pystr) : list pystr :=
  if PyStr.eqb action (py "Navigate") then [py "url"]
  else if PyStr.eqb action (py "Click") then [py "selector"]
  else if PyStr.eqb action (py "Type") then [py "selector"; py "text"]
  else [].

(** The message of the error for a missing field. *)
Definition missing_parameter (field : pystr) : pystr :=
  py "Missing '" ++ field ++ py "' parameter".

(** The three release steps of the teardown, in their order. *)
Definition release_steps : list event :=
  [Called ContextClose; Called BrowserClose; Called Stop].

(** The content a response carries: [response["data"]["content"]]. *)
Definition content_of (response : pyval) : option pyval :=
  match response with
  | PDict d =>
      match dict_lookup (py "data") d with
      | Some (PDict data) => dict_lookup (py "content") data
      | _ => None
      end
  | _ => None
  end.

(** A world after one more line on standard output. *)
Definition written {Session} (w : world Session) (line : pyval)
  : world Session :=
  {| session := session w; calls := calls w; stdout := stdout w ++ [line] |}.

Section ProtocolDefs.

Context {lib : PyLib} {Session : Type} {drv : Playwright Session}.

(** The string an extraction produced on the page: what the script
    returned or, when the script raised, the inner text of the body. *)
Definition extracted (s : Session) : option pystr :=
  match perform EvaluateReadable s with
  | (Ok content, _) => Some content
  | (Raise _, s') =>
      match perform (InnerText (py "body")) s' with
      | (Ok text, _) => Some text
      | (Raise _, _) => None
      end
  end.

(** A line of input is blank when nothing is left of it once stripped. *)
Definition blank (raw : pystr) : bool :=
  match strip raw with
  | [] => true
  | _ :: _ => false
  end.

(** The action a line of input carries: the [action] entry of the object
    it decodes to, the empty string when the object has none, and [None]
    when the line does not decode to an object. *)
Definition action_of (raw : pystr) : pyval :=
  match json_loads (strip raw) with
  | Ok cmd =>
      match py_get cmd (py "action") (PStr []) with
      | Ok action => action
      | Raise _ => PNone
      end
  | Raise _ => PNone
  end.

(** A line of input is a Close command. *)
Definition closes (raw : pystr) : bool :=
  negb (blank raw) && eq_str (action_of raw) (py "Close").

(** The lines the loop processes: all of them up to and including the
    first Close command, or all of them when there is none. *)
Fixpoint processed (stdin : list pystr) : list pystr :=
  match stdin with
  | [] => []
  | raw :: rest => if closes raw then [raw] else raw :: processed rest
  end.

(** The number of lines with content among some lines. *)
Definition content_lines (lines : list pystr) : nat :=
  List.length (List.filter (fun raw => negb (blank raw)) lines).

(** A computation that writes nothing on standard output. *)
Definition silent {A} (m : M Session A) : Prop :=
  forall w, stdout (snd (m w)) = stdout w.

(** All three release steps were attempted, in their order, during the
    teardown run from [w]. *)
Definition all_release_steps_attempted (w : world Session) : Prop :=
  calls (snd (cleanup w)) = calls w ++ release_steps.

End ProtocolDefs.

End Protocol.

(* ================================================================== *)
(** ** A sample library and a sample driver, for the examples *)

Module Samples.

(** [q s] is [s] between double quotes. *)
Definition q (s : string) : pystr := [34%N] ++ py s ++ [34%N].

(** Lines of input and the values [json.loads] decodes them to. *)
Definition close_line : pystr := py "{" ++ q "action" ++ py ": " ++ q "Close" ++ py "}".
Definition close_cmd : pyval := PDict [(py "action", PStr (py "Close"))].

Definition read_page_line : pystr := py "{" ++ q "action" ++ py ": " ++ q "ReadPage" ++ py "}".
Definition read_page_cmd : pyval := PDict [(py "action", PStr (py "ReadPage"))].

Definition navigate_line : pystr := py "{" ++ q "action" ++ py ": " ++ q "Navigate" ++ py "}".
Definition navigate_cmd : pyval := PDict [(py "action", PStr (py "Navigate"))].

Definition fly_line : pystr := py "{" ++ q "action" ++ py ": " ++ q "Fly" ++ py "}".
Definition fly_cmd : pyval := PDict [(py "action", PStr (py "Fly"))].

Definition empty_object_line : pystr := py "{}".

Definition message_line : pystr := py "{" ++ q "message" ++ py ": " ++ q "hi" ++ py "}".
Definition message_cmd : pyval := PDict [(py "message", PStr (py "hi"))].

Definition malformed_line : pystr := py "not json".

Definition json_decode_error : exn :=
  {| exc_type := py "JSONDecodeError";
     exc_msg := py "Expecting value: line 1 column 1 (char 0)" |}.

(** A decoder that knows the lines above, on which it returns what
    [json.loads] returns, and takes every other line for malformed. *)
Definition sample_loads (line : pystr) : result pyval :=
  if PyStr.eqb line close_line then Ok close_cmd
  else if PyStr.eqb line read_page_line then Ok read_page_cmd
  else if PyStr.eqb line navigate_line then Ok navigate_cmd
  else if PyStr.eqb line fly_line then Ok fly_cmd
  else if PyStr.eqb line empty_object_line then Ok (PDict [])
  else if PyStr.eqb line message_line then Ok message_cmd
  else Raise json_decode_error.

Definition sample_lib : PyLib := {|
  json_loads := sample_loads;
  b64encode := fun _ => [];
  repr_other := fun _ => py "..."
|}.

(** A page with a title, an address and a text, in a browser whose context
    may refuse to close. *)
Record sample_session := {
  page_title : pystr;
  page_url : pystr;
  page_text : pystr;
  close_fails : bool
}.

Definition target_closed : exn :=
  {| exc_type := py "Error";
     exc_msg := py "Target page, context or browser has been closed" |}.

Definition sample_perform (A : Type) (c : call A) (s : sample_session)
  : result A * sample_session :=
  match c in call T return result T * sample_session with
  | Goto (PStr url) _ _ =>
      (Ok tt, {| page_title := page_title s; page_url := url;
                 page_text := page_text s; close_fails := close_fails s |})
  | Goto _ _ _ => (Raise target_closed, s)
  | Title => (Ok (page_title s), s)
  | Url => (Ok (page_url s), s)
  | Screenshot _ => (Ok [], s)
  | EvaluateReadable => (Ok (page_text s), s)
  | InnerText _ => (Ok (page_text s), s)
  | ContextClose =>
      if close_fails s then (Raise target_closed, s) else (Ok tt, s)
  | Start | Launch _ | NewContext _ _ _ | NewPage
  | SetDefaultTimeout _ | SetDefaultNavigationTimeout _
  | Click _ _ | ClickText _ _ | WaitForLoadState _ _ | Fill _ _ _
  | BrowserClose | Stop => (Ok tt, s)
  end.

Definition sample_driver : Playwright sample_session :=
  {| perform := sample_perform |}.

Definition blank_page : sample_session :=
  {| page_title := py "Example"; page_url := py "about:blank";
     page_text := py "Hello"; close_fails := false |}.



(** A browser whose context raises when it is closed. *)
Definition stuck_page : sample_session :=
  {| page_title := py "Example"; page_url := py "about:blank";
     page_text := py "Hello"; close_fails := true |}.

Definition start (s : sample_session) : Bridge.world sample_session :=
  {| Bridge.session := s; Bridge.calls := []; Bridge.stdout := [] |}.

(** A Type command with a selector and an empty text. *)
Definition type_empty_text : list (pystr * pyval) :=
  [(py "action", PStr (py "Type")); (py "selector", PStr (py "#q"));
   (py "text", PStr [])].

(** Five lines of input: a line that does not decode, a blank line, an
    unknown action, a Close command and a line after it. *)
Definition five_lines : list pystr :=
  [malformed_line; py "  "; fly_line; close_line; read_page_line].


Definition value_error : exn :=
  {| exc_type := py "ValueError"; exc_msg := py "bad message" |}.


Definition one_message : Sdk.environment :=
  {| Sdk.stdin_line := message_line ++ [10%N];
     Sdk.environ := fun _ => None |}.

Definition nothing_written : Sdk.output :=
  {| Sdk.stdout := []; Sdk.stderr := [] |}.

End Samples.


(* ================================================================== *)
(** ** More vocabulary for the bridge *)

Module Commands.

Import Bridge.

(** The calls that act on the page; the others start or release the
    session. *)
Definition page_call (ev : event) : bool :=
  match ev with
  | Called c =>
      match c with
      | Goto _ _ _ | Title | Url | Click _ _ | ClickText _ _
      | WaitForLoadState _ _ | Fill _ _ _ | Screenshot _
      | EvaluateReadable | InnerText _ => true
      | _ => false
      end
  end.

(** The field each action checks first. *)
Definition first_checked : list (pystr * pystr) :=
  [(py "Navigate", py "url"); (py "Click", py "selector");
   (py "Type", py "selector")].

(** The string returned when nothing could be extracted. *)
Definition placeholder : pystr := py "(could not extract page content)".

(** The ready line. *)
Definition ready : pyval := success [(py "status", PStr (py "ready"))].

Section CommandsDefs.

Context {lib : PyLib} {Session : Type} {drv : Playwright Session}.

(** A computation that only makes calls on the page. *)
Definition page_only {A} (m : M Session A) : Prop :=
  forall w, exists cs,
    calls (snd (m w)) = calls w ++ cs /\ forallb page_call cs = true.

End CommandsDefs.

End Commands.

(* ================================================================== *)
(** ** A driver whose calls can be made to fail, for the examples *)

Module Faulty.

(** Which calls raise. *)
Record faults := {
  fail_start : bool;
  fail_goto : bool;
  fail_click : bool;
  fail_click_text : bool;
  fail_evaluate : bool;
  fail_inner_text : bool
}.

Definition timeout_error : exn :=
  {| exc_type := py "TimeoutError"; exc_msg := py "Timeout 30000ms exceeded." |}.

Definition launch_error : exn :=
  {| exc_type := py "Error"; exc_msg := py "Executable doesn't exist" |}.

Definition text_error : exn :=
  {| exc_type := py "TimeoutError"; exc_msg := py "Locator.click: Timeout 30000ms exceeded." |}.

Definition outcome_of {A} (fails : bool) (e : exn) (a : A) (s : faults)
  : result A * faults :=
  if fails then (Raise e, s) else (Ok a, s).

Definition faulty_perform (A : Type) (c : call A) (s : faults)
  : result A * faults :=
  match c in call T return result T * faults with
  | Start => outcome_of (fail_start s) launch_error tt s
  | Goto _ _ _ => outcome_of (fail_goto s) timeout_error tt s
  | Click _ _ => outcome_of (fail_click s) timeout_error tt s
  | ClickText _ _ => outcome_of (fail_click_text s) text_error tt s
  | EvaluateReadable => outcome_of (fail_evaluate s) timeout_error (py "Hello") s
  | InnerText _ => outcome_of (fail_inner_text s) timeout_error (py "Hello") s
  | Title => (Ok (py "Example"), s)
  | Url => (Ok (py "about:blank"), s)
  | Screenshot _ => (Ok [], s)
  | Launch _ | NewContext _ _ _ | NewPage
  | SetDefaultTimeout _ | SetDefaultNavigationTimeout _
  | WaitForLoadState _ _ | Fill _ _ _
  | ContextClose | BrowserClose | Stop => (Ok tt, s)
  end.

Definition faulty_driver : Playwright faults :=
  {| perform := faulty_perform |}.

Definition healthy : faults :=
  {| fail_start := false; fail_goto := false; fail_click := false;
     fail_click_text := false; fail_evaluate := false;
     fail_inner_text := false |}.

Definition no_extraction : faults :=
  {| fail_start := false; fail_goto := false; fail_click := false;
     fail_click_text := false; fail_evaluate := true;
     fail_inner_text := true |}.

Definition no_css_match : faults :=
  {| fail_start := false; fail_goto := false; fail_click := true;
     fail_click_text := false; fail_evaluate := false;
     fail_inner_text := false |}.

Definition no_match : faults :=
  {| fail_start := false; fail_goto := false; fail_click := true;
     fail_click_text := true; fail_evaluate := false;
     fail_inner_text := false |}.

Definition unreachable : faults :=
  {| fail_start := false; fail_goto := true; fail_click := false;
     fail_click_text := false; fail_evaluate := false;
     fail_inner_text := false |}.

Definition no_browser : faults :=
  {| fail_start := true; fail_goto := false; fail_click := false;
     fail_click_text := false; fail_evaluate := false;
     fail_inner_text := false |}.

Definition start (s : faults) : Bridge.world faults :=
  {| Bridge.session := s; Bridge.calls := []; Bridge.stdout := [] |}.

(** Lines of input and what they decode to. *)
Definition q (s : string) : pystr := [34%N] ++ py s ++ [34%N].

Definition goto_line : pystr :=
  py "{" ++ q "action" ++ py ": " ++ q "Navigate" ++ py ", " ++ q "url"
  ++ py ": " ++ q "http://example.test" ++ py "}".
Definition goto_cmd : pyval :=
  PDict [(py "action", PStr (py "Navigate"));
         (py "url", PStr (py "http://example.test"))].

Definition click_line : pystr :=
  py "{" ++ q "action" ++ py ": " ++ q "Click" ++ py ", " ++ q "selector"
  ++ py ": " ++ q "Sign in" ++ py "}".
Definition click_cmd : pyval :=
  PDict [(py "action", PStr (py "Click"));
         (py "selector", PStr (py "Sign in"))].

Definition list_line : pystr := py "[1, 2]".
Definition list_value : pyval := PList [PInt 1; PInt 2].

Definition null_url_line : pystr :=
  py "{" ++ q "action" ++ py ": " ++ q "Navigate" ++ py ", " ++ q "url"
  ++ py ": null}".
Definition null_url_cmd : pyval :=
  PDict [(py "action", PStr (py "Navigate")); (py "url", PNone)].

Definition number_action_cmd : pyval := PDict [(py "action", PInt 7)].

Definition type_null_text_cmd : pyval :=
  PDict [(py "action", PStr (py "Type")); (py "selector", PStr (py "#q"));
         (py "text", PNone)].

(** A decoder that knows the lines above and those of the first samples. *)
Definition faulty_loads (line : pystr) : result pyval :=
  if PyStr.eqb line goto_line then Ok goto_cmd
  else if PyStr.eqb line click_line then Ok click_cmd
  else if PyStr.eqb line list_line then Ok list_value
  else if PyStr.eqb line null_url_line then Ok null_url_cmd
  else Samples.sample_loads line.

Definition faulty_lib : PyLib := {|
  json_loads := faulty_loads;
  b64encode := fun _ => [];
  repr_other := fun _ => py "..."
|}.

End Faulty.

(* ================================================================== *)
(** ** The rest of the agent SDK, and the echo agent *)

Module SdkMore.

Import Sdk.

(** [Agent.__init__] *)
Definition __init__ : Agent :=
  {| _handler := None; _setup := None; _teardown := None |}.

(** [Agent.on_message]: the function is registered and returned. *)
Definition on_message (self : Agent)
    (func : pyval -> pyval -> result pyval)
  : Agent * (pyval -> pyval -> result pyval) :=
  ({| _handler := Some func; _setup := _setup self;
      _teardown := _teardown self |}, func).

(** [Agent.on_setup] *)
Definition on_setup (self : Agent) (func : result unit)
  : Agent * result unit :=
  ({| _handler := _handler self; _setup := Some func;
      _teardown := _teardown self |}, func).

(** [Agent.on_teardown] *)
Definition on_teardown (self : Agent) (func : result unit)
  : Agent * result unit :=
  ({| _handler := _handler self; _setup := _setup self;
      _teardown := Some func |}, func).

(** [os.environ.get(k, default)] *)
Definition getenv (env : environment) (k default : pystr) : pystr :=
  match environ env k with
  | Some v => v
  | None => default
  end.

(** The object [read_input] builds from the environment when standard
    input is empty. *)
Definition fallback_input (env : environment) : pyval :=
  PDict [(py "type", PStr (py "message"));
         (py "agent_id", PStr (getenv env (py "OPENFANG_AGENT_ID") []));
         (py "message", PStr (getenv env (py "OPENFANG_MESSAGE") []));
         (py "context", PDict [])].

(** A response object without metadata. *)
Definition response (text : pyval) : pyval :=
  PDict [(py "type", PStr (py "response")); (py "text", text)].

(** The setup function of an agent, if any, returns. *)
Definition setup_returns (self : Agent) : Prop :=
  _setup self = None \/ _setup self = Some (Ok tt).

Section EchoAgent.

Context {lib : PyLib}.

(** examples/echo_agent.py, [handle] *)
Definition handle (env : environment) (message context : pyval)
  : result pyval :=
  match py_get context (py "agent_id")
          (PStr (getenv env (py "OPENFANG_AGENT_ID") (py "unknown"))) with
  | Raise e => Raise e
  | Ok agent_id =>
      Ok (PStr (py "Hello from Python agent " ++ py_str agent_id
                ++ py "! You said: " ++ py_str message))
  end.

(** examples/echo_agent.py: the agent is created, [handle] is registered
    and the agent runs. *)
Definition echo_agent (env : environment) : M unit :=
  let agent := __init__ in
  let (agent, _) := on_message agent (handle env) in
  run agent env.

End EchoAgent.

(** Samples. *)
Definition echo_handler : pyval -> pyval -> result pyval :=
  fun message _ => Ok message.

Definition echo : Agent :=
  {| _handler := Some echo_handler; _setup := Some (Ok tt);
     _teardown := Some (Raise Samples.value_error) |}.

Definition set_object : pyobject :=
  {| obj_type := py "set"; obj_str := py "set()"; obj_truthy := false |}.

Definition bad_text : Agent :=
  {| _handler := Some (fun _ _ => Ok (PDict [(py "text", PObject set_object)]));
     _setup := None; _teardown := None |}.

Definition with_metadata : Agent :=
  {| _handler :=
       Some (fun message _ =>
               Ok (PDict [(py "text", message); (py "metadata", PDict [])]));
     _setup := None; _teardown := None |}.

Definition failing_setup : Agent :=
  {| _handler := Some echo_handler; _setup := Some (Raise Samples.value_error);
     _teardown := None |}.

Definition blank_input : environment :=
  {| stdin_line := [10%N];
     environ := fun k =>
       if PyStr.eqb k (py "OPENFANG_MESSAGE") then Some (py "hi") else None |}.

Definition malformed_input : environment :=
  {| stdin_line := Samples.malformed_line; environ := fun _ => None |}.

Definition list_input : environment :=
  {| stdin_line := Faulty.list_line; environ := fun _ => None |}.

(** The JSON text of the object built from [blank_input]. *)
Definition fallback_line : pystr :=
  py "{" ++ Faulty.q "type" ++ py ": " ++ Faulty.q "message" ++ py ", "
  ++ Faulty.q "agent_id" ++ py ": " ++ Faulty.q "" ++ py ", "
  ++ Faulty.q "message" ++ py ": " ++ Faulty.q "hi" ++ py ", "
  ++ Faulty.q "context" ++ py ": {}}".

(** An input whose context is null. *)
Definition null_context_line : pystr :=
  py "{" ++ Faulty.q "message" ++ py ": " ++ Faulty.q "hi" ++ py ", "
  ++ Faulty.q "context" ++ py ": null}".
Definition null_context_value : pyval :=
  PDict [(py "message", PStr (py "hi")); (py "context", PNone)].

(** A decoder that also knows these two lines. *)
Definition more_loads (line : pystr) : result pyval :=
  if PyStr.eqb line fallback_line then Ok (fallback_input blank_input)
  else if PyStr.eqb line null_context_line then Ok null_context_value
  else Faulty.faulty_loads line.

Definition more_lib : PyLib := {|
  json_loads := more_loads;
  b64encode := fun _ => [];
  repr_other := fun _ => py "..."
|}.

Definition explicit_input : environment :=
  {| stdin_line := fallback_line; environ := fun _ => None |}.

Definition null_context_input : environment :=
  {| stdin_line := null_context_line; environ := fun _ => None |}.

Definition message_input : environment :=
  {| stdin_line := Samples.message_line ++ [13; 10]%N;
     environ := fun _ => None |}.

End SdkMore.

(* ================================================================== *)
(** ** The SDK with callables that write and exit *)

(** [Sdk.Agent] holds functions that only return or raise.  A Python
    callable can do more: write on the standard streams and call
    [sys.exit].  Here the registered functions are computations of [Sdk.M],
    and [run] is the same text. *)
Module SdkEffects.

Import Sdk.

Record Agent := {
  _handler : option (pyval -> pyval -> M pyval);
  _setup : option (M unit);
  _teardown : option (M unit)
}.

(** An agent of [Sdk], its functions taken as computations. *)
Definition of_pure (self : Sdk.Agent) : Agent :=
  {| _handler :=
       match Sdk._handler self with
       | Some handler => Some (fun message context =>
                                 lift (handler message context))
       | None => None
       end;
     _setup :=
       match Sdk._setup self with
       | Some setup => Some (lift setup)
       | None => None
       end;
     _teardown :=
       match Sdk._teardown self with
       | Some teardown => Some (lift teardown)
       | None => None
       end |}.

(** An agent with its teardown function taken away. *)
Definition without_teardown (self : Agent) : Agent :=
  {| _handler := _handler self; _setup := _setup self; _teardown := None |}.

Section SdkEffectsDefs.

Context {lib : PyLib}.

(** The [finally] clause of [run]. *)
Definition on_exit (self : Agent) : M unit :=
  match _teardown self with
  | Some teardown =>
      try_except teardown
        (fun e => log (py "Teardown error: " ++ exc_msg e) (py "error"))
  | None => ret tt
  end.

(** [Agent.run] *)
Definition run (self : Agent) (env : environment) : M unit :=
  match _handler self with
  | None =>
      bind (log (py "No message handler registered") (py "error"))
        (fun _ => sys_exit 1)
  | Some handler =>
      try_finally
        (try_except
           (bind (match _setup self with
                  | Some setup => setup
                  | None => ret tt
                  end) (fun _ =>
            bind (read_input env) (fun data =>
            bind (lift (py_get data (py "message") (PStr []))) (fun message =>
            bind (lift (py_get data (py "context") (PDict []))) (fun context =>
            bind (handler message context) (fun result =>
            respond_result result))))))
           on_error)
        (on_exit self)
  end.

(** A teardown function that writes a response and exits with status 0. *)
Definition goodbye : M unit :=
  bind (respond (PStr (py "bye")) PNone) (fun _ => sys_exit 0).

(** An agent whose handler raises and whose teardown function is
    [goodbye]. *)
Definition masking : Agent :=
  {| _handler := Some (fun _ _ => lift (Raise Samples.value_error));
     _setup := None;
     _teardown := Some goodbye |}.

End SdkEffectsDefs.

End SdkEffects.

(* ================================================================== *)
(** ** The REST client: sdk/python/openfang_client.py *)

Module Client.

(** [s.rstrip(chars)]: the characters of [chars] are removed from the end
    of [s]. *)
Definition member (c : codepoint) (chars : pystr) : bool :=
  existsb (N.eqb c) chars.

Fixpoint lstrip_chars (chars s : pystr) : pystr :=
  match s with
  | [] => []
  | c :: s' => if member c chars then lstrip_chars chars s' else s
  end.

Definition rstrip_chars (chars s : pystr) : pystr :=
  rev (lstrip_chars chars (rev s)).

(** [s.startswith(prefix)] *)
Fixpoint startswith (s prefix : pystr) : bool :=
  match prefix, s with
  | [], _ => true
  | p :: prefix', c :: s' => N.eqb c p && startswith s' prefix'
  | _ :: _, [] => false
  end.

(** [needle in s], on strings. *)
Fixpoint contains (s needle : pystr) : bool :=
  startswith s needle
  || match s with
     | [] => false
     | _ :: s' => contains s' needle
     end.

(** [s.split(sep)] for a separator of one character: the pieces between
    the separators, of which there is always at least one. *)
Fixpoint split_on (sep : codepoint) (s : pystr) : list pystr :=
  match s with
  | [] => [[]]
  | c :: s' =>
      if N.eqb c sep then [] :: split_on sep s'
      else
        match split_on sep s' with
        | piece :: pieces => (c :: piece) :: pieces
        | [] => [[c]]
        end
  end.

(** [d.update(other)] on dicts. *)
Definition dict_update (d other : list (pystr * pyval))
  : list (pystr * pyval) :=
  fold_left (fun acc kv => dict_set (fst kv) (snd kv) acc) other d.

(** The client object: [OpenFang]. *)
Record OpenFang := {
  base_url : pystr;
  _headers : list (pystr * pyval)
}.

(** [OpenFang.__init__(base_url, headers)]; [headers] is [None] when it is
    not given. *)
Definition __init__ (base : pystr) (headers : option (list (pystr * pyval)))
  : OpenFang :=
  let default := [(py "Content-Type", PStr (py "application/json"))] in
  {| base_url := rstrip_chars (py "/") base;
     _headers :=
       match headers with
       | Some ((_ :: _) as h) => dict_update default h
       | _ => default
       end |}.

(** What [urlopen] is given. *)
Record request := {
  req_url : pystr;
  req_data : option pyval;      (* the value whose JSON text is the body *)
  req_headers : list (pystr * pyval);
  req_method : pystr
}.

(** Python [bytes]. *)
Definition bytes := list N.

(** *** [bytes.decode()]: strict UTF-8 *)

Definition hex_digit (n : N) : N :=
  if (n <? 10)%N then (48 + n)%N else (87 + n)%N.

(** [UnicodeDecodeError] for the [length] bytes from position [pos], the
    first of which is [byte]. *)
Definition unicode_decode_error (pos length byte : N) (reason : pystr)
    : exn :=
  {| exc_type := py "UnicodeDecodeError";
     exc_msg :=
       if (length =? 1)%N then
         py "'utf-8' codec can't decode byte 0x"
         ++ [hex_digit (byte / 16); hex_digit (byte mod 16)]
         ++ py " in position " ++ PyStr.of_N pos ++ py ": " ++ reason
       else
         py "'utf-8' codec can't decode bytes in position "
         ++ PyStr.of_N pos ++ py "-" ++ PyStr.of_N (pos + length - 1)
         ++ py ": " ++ reason |}.

Definition unexpected_end : pystr := py "unexpected end of data".
Definition invalid_start : pystr := py "invalid start byte".
Definition invalid_continuation : pystr := py "invalid continuation byte".

Definition continuation (b : N) : bool := ((128 <=? b) && (b <? 192))%N.

Definition low6 (b : N) : N := N.land b 63.

Definition decoded_char (c : N) (rest : result pystr) : result pystr :=
  match rest with
  | Ok text => Ok (c :: text)
  | Raise e => Raise e
  end.

(** The decoder, on the bytes from position [pos] on.  A character is one
    byte below 0x80, or a first byte from 0xC2 to 0xF4 followed by one, two
    or three continuation bytes; encodings longer than needed, surrogates
    and code points above 0x10FFFF are refused at the second byte. *)
Fixpoint utf8_from (pos : N) (s : bytes) : result pystr :=
  match s with
  | [] => Ok []
  | b1 :: s1 =>
      if (b1 <? 128)%N then decoded_char b1 (utf8_from (pos + 1) s1)
      else if (b1 <? 194)%N then
        Raise (unicode_decode_error pos 1 b1 invalid_start)
      else if (b1 <? 224)%N then
        match s1 with
        | [] => Raise (unicode_decode_error pos 1 b1 unexpected_end)
        | b2 :: s2 =>
            if continuation b2 then
              decoded_char (N.land b1 31 * 64 + low6 b2)
                (utf8_from (pos + 2) s2)
            else Raise (unicode_decode_error pos 1 b1 invalid_continuation)
        end
      else if (b1 <? 240)%N then
        match s1 with
        | [] => Raise (unicode_decode_error pos 1 b1 unexpected_end)
        | b2 :: s2 =>
            if negb (continuation b2)
               || (if (b2 <? 160)%N then (b1 =? 224)%N else (b1 =? 237)%N)
            then Raise (unicode_decode_error pos 1 b1 invalid_continuation)
            else
              match s2 with
              | [] => Raise (unicode_decode_error pos 2 b1 unexpected_end)
              | b3 :: s3 =>
                  if continuation b3 then
                    decoded_char
                      (N.land b1 15 * 4096 + low6 b2 * 64 + low6 b3)
                      (utf8_from (pos + 3) s3)
                  else
                    Raise
                      (unicode_decode_error pos 2 b1 invalid_continuation)
              end
        end
      else if (b1 <? 245)%N then
        match s1 with
        | [] => Raise (unicode_decode_error pos 1 b1 unexpected_end)
        | b2 :: s2 =>
            if negb (continuation b2)
               || (if (b2 <? 144)%N then (b1 =? 240)%N else (b1 =? 244)%N)
            then Raise (unicode_decode_error pos 1 b1 invalid_continuation)
            else
              match s2 with
              | [] => Raise (unicode_decode_error pos 2 b1 unexpected_end)
              | b3 :: s3 =>
                  if continuation b3 then
                    match s3 with
                    | [] =>
                        Raise (unicode_decode_error pos 3 b1 unexpected_end)
                    | b4 :: s4 =>
                        if continuation b4 then
                          decoded_char
                            (N.land b1 7 * 262144 + low6 b2 * 4096
                             + low6 b3 * 64 + low6 b4)
                            (utf8_from (pos + 4) s4)
                        else
                          Raise
                            (unicode_decode_error pos 3 b1
                               invalid_continuation)
                    end
                  else
                    Raise
                      (unicode_decode_error pos 2 b1 invalid_continuation)
              end
        end
      else Raise (unicode_decode_error pos 1 b1 invalid_start)
  end.

Definition utf8_decode (b : bytes) : result pystr := utf8_from 0 b.

(** What [urlopen] gives: a response, with its content type (if it has
    one) and the bytes of its body as the successive [read] calls return
    them; an [HTTPError], with its code and the bytes of its body (if it has
    one); or another exception. *)
Inductive http_outcome :=
| Response (content_type : option pystr) (chunks : list bytes)
| HTTPError (code : Z) (body : option bytes)
| Failed (e : exn).

(** How a call of the client ends: a value, an [OpenFangError] with its
    message, status and body, or another exception. *)
Inductive answer (A : Type) :=
| Returned (a : A)
| OpenFangError (message : pystr) (status : Z) (body : pystr)
| Other (e : exn).

Arguments Returned {A} a.
Arguments OpenFangError {A} message status body.
Arguments Other {A} e.

(** How the generator of [_stream] ends: on the [DONE] sentinel, at the
    end of the stream, or on an exception. *)
Inductive stream_end :=
| Sentinel
| EndOfStream
| StreamError (e : exn).

(** A run of the generator iterated to its end: the events it yielded, how
    it ended, and whether it closed the response. *)
Record stream_run := {
  events : list pyval;
  ending : stream_end;
  closed : bool
}.

Definition yielded (evs : list pyval) (r : stream_run) : stream_run :=
  {| events := evs ++ events r; ending := ending r; closed := closed r |}.

Section ClientDefs.

Context {lib : PyLib}.

Variable urlopen : request -> http_outcome.

(** The [except HTTPError] clause: the [OpenFangError] raised, unless
    decoding the body of the error raises first. *)
Definition http_error {A} (code : Z) (body : option bytes) : answer A :=
  match match body with
        | Some b => utf8_decode b
        | None => Ok []
        end with
  | Raise e => Other e
  | Ok body_text =>
      OpenFangError (py "HTTP " ++ PyStr.of_Z code ++ py ": " ++ body_text)
        code body_text
  end.

(** [json.dumps(body).encode() if body is not None else None] *)
Definition encode_body (body : pyval) : result (option pyval) :=
  match body with
  | PNone => Ok None
  | _ =>
      match json_dumps body with
      | Ok v => Ok (Some v)
      | Raise e => Raise e
      end
  end.

(** [OpenFang._request] *)
Definition _request (self : OpenFang) (method path : pystr) (body : pyval)
  : answer pyval :=
  let url := base_url self ++ path in
  match encode_body body with
  | Raise e => Other e
  | Ok data =>
      let req := {| req_url := url; req_data := data;
                    req_headers := _headers self; req_method := method |} in
      match urlopen req with
      | Response content_type chunks =>
          let ct := match content_type with Some t => t | None => [] end in
          match utf8_decode (List.concat chunks) with
          | Raise e => Other e
          | Ok text =>
              if contains ct (py "application/json") then
                match json_loads text with
                | Ok v => Returned v
                | Raise e => Other e
                end
              else Returned (PStr text)
          end
      | HTTPError code body => http_error code body
      | Failed e => Other e
      end
  end.

(** The [for line in lines] loop of [_stream]: the events yielded, and how
    the generator ended if it ended inside the loop. *)
Fixpoint for_lines (lines : list pystr) : list pyval * option stream_end :=
  match lines with
  | [] => ([], None)
  | line :: rest =>
      let line := strip line in
      if startswith line (py "data: ") then
        let data_str := skipn 6 line in
        if PyStr.eqb data_str (py "[DONE]") then ([], Some Sentinel)
        else
          match json_loads data_str with
          | Ok v =>
              let (evs, e) := for_lines rest in (v :: evs, e)
          | Raise err =>
              if PyStr.eqb (exc_type err) (py "JSONDecodeError") then
                let (evs, e) := for_lines rest in
                (PDict [(py "raw", PStr data_str)] :: evs, e)
              else ([], Some (StreamError err))
          end
      else for_lines rest
  end.

(** The [while True] loop of [_stream], from a buffer, over the chunks of
    bytes the successive [resp.read(4096)] return; an empty chunk, like no
    chunk, is the end of the stream, and a chunk that does not decode makes
    the generator raise. *)
Fixpoint read_chunks (buffer : pystr) (chunks : list bytes) : stream_run :=
  match chunks with
  | [] => {| events := []; ending := EndOfStream; closed := true |}
  | [] :: _ => {| events := []; ending := EndOfStream; closed := true |}
  | chunk :: rest =>
      match utf8_decode chunk with
      | Raise e => {| events := []; ending := StreamError e; closed := false |}
      | Ok text =>
          let buffer := buffer ++ text in
          let lines := split_on 10%N buffer in
          let buffer := List.last lines [] in
          let lines := List.removelast lines in
          match for_lines lines with
          | (evs, Some e) =>
              {| events := evs; ending := e; closed := false |}
          | (evs, None) => yielded evs (read_chunks buffer rest)
          end
      end
  end.

(** The same loop over the texts of chunks that all decoded. *)
Fixpoint read_decoded (buffer : pystr) (texts : list pystr) : stream_run :=
  match texts with
  | [] => {| events := []; ending := EndOfStream; closed := true |}
  | text :: rest =>
      let buffer := buffer ++ text in
      let lines := split_on 10%N buffer in
      let buffer := List.last lines [] in
      let lines := List.removelast lines in
      match for_lines lines with
      | (evs, Some e) => {| events := evs; ending := e; closed := false |}
      | (evs, None) => yielded evs (read_decoded buffer rest)
      end
  end.

(** The run of the generator over some complete lines and nothing else:
    the loop over the lines, then the end of the stream. *)
Definition run_of_lines (lines : list pystr) : stream_run :=
  match for_lines lines with
  | (evs, Some e) => {| events := evs; ending := e; closed := false |}
  | (evs, None) => {| events := evs; ending := EndOfStream; closed := true |}
  end.

(** The chunks are not empty and decode, one by one, to the texts. *)
Definition decoded (chunks : list bytes) (texts : list pystr) : Prop :=
  Forall (fun c => c <> []) chunks
  /\ Forall2 (fun c t => utf8_decode c = Ok t) chunks texts.

(** [OpenFang._stream], iterated to its end. *)
Definition _stream (self : OpenFang) (method path : pystr) (body : pyval)
  : answer stream_run :=
  let url := base_url self ++ path in
  match encode_body body with
  | Raise e => Other e
  | Ok data =>
      let headers := dict_set (py "Accept") (PStr (py "text/event-stream"))
                       (_headers self) in
      let req := {| req_url := url; req_data := data;
                    req_headers := headers; req_method := method |} in
      match urlopen req with
      | Response _ chunks => Returned (read_chunks [] chunks)
      | HTTPError code body => http_error code body
      | Failed e => Other e
      end
  end.

(** The event [_stream] yields for a line that carries data: what its
    payload decodes to, or [{"raw": payload}]. *)
Definition event_of (line : pystr) : pyval :=
  let data_str := skipn 6 (strip line) in
  match json_loads data_str with
  | Ok v => v
  | Raise _ => PDict [(py "raw", PStr data_str)]
  end.

End ClientDefs.

(** The text of some lines, each ended by a newline. *)
Definition unlines (lines : list pystr) : pystr :=
  List.concat (List.map (fun l => l ++ [10%N]) lines).

(** A string without a newline. *)
Definition one_line (s : pystr) : Prop := ~ In 10%N s.

(** A line that carries data: stripped, it starts with [data: ]. *)
Definition is_data (line : pystr) : bool :=
  startswith (strip line) (py "data: ").

(** A line that is the sentinel. *)
Definition is_done (line : pystr) : bool :=
  is_data line && PyStr.eqb (skipn 6 (strip line)) (py "[DONE]").

End Client.

(* ================================================================== *)
(** ** Sample streams, for the examples *)

Module StreamSamples.

Import Client.

(** Lines of a stream: an event, a comment, a payload that is not JSON and
    the sentinel. *)
Definition data_hi : pystr := py "data: " ++ Samples.message_line.
Definition comment : pystr := py ": keep-alive".
Definition data_oops : pystr := py "data: oops".
Definition done : pystr := py "data: [DONE]".

Definition three_lines : list pystr := [data_hi; comment; data_oops].

(** The bytes of the three lines, whole and cut in two in the middle of the
    first line. *)
Definition whole : list bytes := [unlines three_lines].

Definition cut : list bytes :=
  [firstn 9 (unlines three_lines); skipn 9 (unlines three_lines)].

(** The three lines followed by an event that has no newline. *)
Definition unfinished : list bytes := [unlines three_lines ++ data_hi].

(** An event, the sentinel, and an event after it. *)
Definition with_sentinel : list bytes :=
  [unlines ([data_hi] ++ [done]) ++ unlines [data_oops]].

(** An event whose text has a character of two bytes, whole and cut
    between the two bytes. *)
Definition accent : bytes := py "data: 1" ++ [195; 169; 10]%N.

Definition accent_cut : list bytes :=
  [py "data: 1" ++ [195]%N; [169; 10]%N].

(** A chunk that ends on the first of the two bytes of a character, and
    the error of the decoder on it. *)
Definition half_character : bytes := py "data: " ++ [195%N].

Definition unicode_error : exn :=
  {| exc_type := py "UnicodeDecodeError";
     exc_msg := py "'utf-8' codec can't decode byte 0xc3 in position 6: unexpected end of data" |}.

(** Two headers given by a caller. *)
Definition caller_headers : list (pystr * pyval) :=
  [(py "Authorization", PStr (py "Bearer t"));
   (py "Content-Type", PStr (py "text/plain"))].

End StreamSamples.

(* ================================================================== *)
(** * Properties *)

(** ** Python strings *)

Module PyStrFacts.

Import PyStr.

Lemma eqb_refl (a : pystr) : eqb a a = true.
Proof.
  induction a as [|x a IH]; simpl; [reflexivity|].
  now rewrite N.eqb_refl, IH.
Qed.

Lemma eqb_eq (a b : pystr) : eqb a b = true <-> a = b.
Proof.
  split.
  - revert b; induction a as [|x a IH]; intros [|y b] H; simpl in H;
      try discriminate; [reflexivity|].
    apply andb_true_iff in H as [Hx Hr].
    apply N.eqb_eq in Hx. apply IH in Hr. now subst.
  - intros ->. apply eqb_refl.
Qed.

Lemma eqb_neq (a b : pystr) : eqb a b = false <-> a <> b.
Proof.
  split.
  - intros H E. apply eqb_eq in E. congruence.
  - intros H. destruct (eqb a b) eqn:E; [|reflexivity].
    apply eqb_eq in E. contradiction.
Qed.




End PyStrFacts.

(* ================================================================== *)
(** ** The command dispatcher *)

Module DispatcherFacts.

Import Bridge Protocol PyStrFacts.

Section Dispatcher.

Context {lib : PyLib} {Session : Type} {drv : Playwright Session}.

Lemma eq_str_other (x a : pystr) :
  ~ In x actions -> In a actions -> eq_str (PStr x) a = false.
Proof.
  intros Hx Ha. simpl. apply eqb_neq. intros ->. contradiction.
Qed.

(** The last branch of the dispatcher. *)
Lemma handle_command_unknown (x : pystr) (cmd : pyval) (timeout_ms : Z)
    (w : world Session) :
  ~ In x actions ->
  handle_command (PStr x) cmd timeout_ms w
  = (Ok (failure (py "Unknown action: " ++ x)), w).
Proof.
  intros Hx. unfold handle_command.
  rewrite !(eq_str_other Hx) by (unfold actions; simpl; tauto).
  reflexivity.
Qed.

(** C4.  A command whose action string is none of the six actions is
    answered [{success: false, error: "Unknown action: X"}]; the dispatcher
    makes no call on the driver and leaves the session, and the whole world,
    as it was. *)
Theorem unknown_action_response (x : pystr) (cmd : pyval) (timeout_ms : Z)
    (w : world Session) :
  ~ In x actions ->
  handle_command (PStr x) cmd timeout_ms w
  = (Ok (failure (py "Unknown action: " ++ x)), w).
Proof.
  exact (handle_command_unknown cmd timeout_ms w).
Qed.

(** C6.  A Navigate command whose object has no [url] entry is answered
    [{success: false, error: "Missing 'url' parameter"}] before any call on
    the driver: the world is as it was. *)
Theorem navigate_without_url (d : list (pystr * pyval)) (timeout_ms : Z)
    (w : world Session) :
  dict_lookup (py "url") d = None ->
  handle_command (PStr (py "Navigate")) (PDict d) timeout_ms w
  = (Ok (failure (py "Missing 'url' parameter")), w).
Proof.
  intros Hd. unfold handle_command.
  replace (eq_str (PStr (py "Navigate")) (py "Navigate")) with true
    by reflexivity.
  unfold py_get. rewrite Hd. reflexivity.
Qed.

Lemma dict_lookup_remove_same (k : pystr) (d : list (pystr * pyval)) :
  dict_lookup k (dict_remove k d) = None.
Proof.
  induction d as [|[k' v] d IH]; simpl; [reflexivity|].
  destruct (PyStr.eqb k' k) eqn:E; [exact IH|].
  simpl. now rewrite E.
Qed.

Lemma dict_lookup_remove_other (k k' : pystr) (d : list (pystr * pyval)) :
  k <> k' -> dict_lookup k' (dict_remove k d) = dict_lookup k' d.
Proof.
  intros Hk. induction d as [|[k0 v] d IH]; simpl; [reflexivity|].
  destruct (PyStr.eqb k0 k) eqn:E.
  - apply eqb_eq in E. subst k0.
    destruct (PyStr.eqb k k') eqn:E'; [|exact IH].
    apply eqb_eq in E'. contradiction.
  - simpl. now rewrite IH.
Qed.

(** What [cmd.get(field, "")] gives is as falsy for an entry that is the
    empty string as for no entry. *)
Lemma get_empty_as_absent (field k : pystr) (d : list (pystr * pyval)) :
  dict_lookup field d = Some (PStr []) ->
  py_get (PDict (dict_remove field d)) k (PStr []) = py_get (PDict d) k (PStr []).
Proof.
  intros Hd. unfold py_get.
  destruct (PyStr.eqb field k) eqn:E.
  - apply eqb_eq in E. subst k.
    now rewrite dict_lookup_remove_same, Hd.
  - apply eqb_neq in E. now rewrite dict_lookup_remove_other.
Qed.

Arguments get_empty_as_absent [field] k [d] _.

(** C10.  For Navigate, Click and Type, a required field that is present and
    equal to the empty string is treated as an absent one: the dispatcher
    does on the command what it does on the command without the field, and
    that is to answer a missing-parameter error with no call on the driver.
    The error names the field, except that Type names [selector] when the
    selector is missing or falsy too, since it is checked first. *)
Theorem empty_field_as_absent (action field : pystr)
    (d : list (pystr * pyval)) (timeout_ms : Z) (w : world Session) :
  In field (required_fields action) ->
  dict_lookup field d = Some (PStr []) ->
  handle_command (PStr action) (PDict d) timeout_ms w
  = handle_command (PStr action) (PDict (dict_remove field d)) timeout_ms w
  /\ exists named : pystr,
       In named (required_fields action)
       /\ handle_command (PStr action) (PDict d) timeout_ms w
          = (Ok (failure (missing_parameter named)), w)
       /\ (named = field
           \/ (action = py "Type" /\ field = py "text"
               /\ named = py "selector"
               /\ exists v, py_get (PDict d) (py "selector") (PStr []) = Ok v
                            /\ truthy v = false)).
Proof.
  intros Hreq Hd. unfold required_fields in *.
  destruct (PyStr.eqb action (py "Navigate")) eqn:EN;
    [|destruct (PyStr.eqb action (py "Click")) eqn:EC;
      [|destruct (PyStr.eqb action (py "Type")) eqn:ET]].
  - apply eqb_eq in EN. subst action.
    destruct Hreq as [<-|[]].
    split.
    + unfold handle_command.
      replace (eq_str (PStr (py "Navigate")) (py "Navigate")) with true
        by reflexivity.
      now rewrite (get_empty_as_absent _ Hd).
    + exists (py "url"). split; [now left|]. split; [|now left].
      unfold handle_command, py_get.
      replace (eq_str (PStr (py "Navigate")) (py "Navigate")) with true
        by reflexivity.
      rewrite Hd. reflexivity.
  - apply eqb_eq in EC. subst action.
    destruct Hreq as [<-|[]].
    split.
    + unfold handle_command.
      replace (eq_str (PStr (py "Click")) (py "Navigate")) with false
        by reflexivity.
      replace (eq_str (PStr (py "Click")) (py "Click")) with true
        by reflexivity.
      now rewrite (get_empty_as_absent _ Hd).
    + exists (py "selector"). split; [now left|]. split; [|now left].
      unfold handle_command, py_get.
      replace (eq_str (PStr (py "Click")) (py "Navigate")) with false
        by reflexivity.
      replace (eq_str (PStr (py "Click")) (py "Click")) with true
        by reflexivity.
      rewrite Hd. reflexivity.
  - apply eqb_eq in ET. subst action.
    split.
    + unfold handle_command.
      replace (eq_str (PStr (py "Type")) (py "Navigate")) with false
        by reflexivity.
      replace (eq_str (PStr (py "Type")) (py "Click")) with false
        by reflexivity.
      replace (eq_str (PStr (py "Type")) (py "Type")) with true
        by reflexivity.
      now rewrite !(get_empty_as_absent _ Hd).
    + unfold handle_command.
      replace (eq_str (PStr (py "Type")) (py "Navigate")) with false
        by reflexivity.
      replace (eq_str (PStr (py "Type")) (py "Click")) with false
        by reflexivity.
      replace (eq_str (PStr (py "Type")) (py "Type")) with true
        by reflexivity.
      destruct Hreq as [<-|[<-|[]]].
      * exists (py "selector"). split; [now left|]. split; [|now left].
        unfold py_get at 1. rewrite Hd.
        unfold py_get. destruct (dict_lookup (py "text") d); reflexivity.
      * destruct (py_get (PDict d) (py "selector") (PStr [])) as [v|e] eqn:Ev;
          [|unfold py_get in Ev; destruct (dict_lookup (py "selector") d);
            discriminate].
        destruct (truthy v) eqn:Tv.
        -- exists (py "text"). split; [right; now left|]. split; [|now left].
           unfold lift, bind at 1. unfold py_get at 1.
           rewrite Hd. unfold bind, lift. rewrite Tv. reflexivity.
        -- exists (py "selector"). split; [now left|]. split.
           ++ unfold lift, bind at 1. unfold py_get at 1.
              rewrite Hd. unfold bind, lift. rewrite Tv. reflexivity.
           ++ right. repeat split; try reflexivity. now exists v.
  - destruct Hreq.
Qed.

End Dispatcher.

End DispatcherFacts.

(* ================================================================== *)
(** ** The readable extraction *)

Module ExtractorFacts.

Import Bridge Protocol PyStrFacts.

Section Extractor.

Context {lib : PyLib} {Session : Type} {drv : Playwright Session}.



(** What ReadPage answers depends on the session alone: not on the other
    fields of the command, the timeout, the calls made before or the lines
    written before. *)
Lemma read_page_of_session (cmd1 cmd2 : pyval) (t1 t2 : Z)
    (w1 w2 : world Session) :
  session w1 = session w2 ->
  fst (handle_command (PStr (py "ReadPage")) cmd1 t1 w1)
  = fst (handle_command (PStr (py "ReadPage")) cmd2 t2 w2).
Proof.
  intros Hs. unfold handle_command.
  replace (eq_str (PStr (py "ReadPage")) (py "Navigate")) with false
    by reflexivity.
  replace (eq_str (PStr (py "ReadPage")) (py "Click")) with false
    by reflexivity.
  replace (eq_str (PStr (py "ReadPage")) (py "Type")) with false
    by reflexivity.
  replace (eq_str (PStr (py "ReadPage")) (py "Screenshot")) with false
    by reflexivity.
  replace (eq_str (PStr (py "ReadPage")) (py "ReadPage")) with true
    by reflexivity.
  unfold extract_readable, try_except, bind, invoke, ret. rewrite Hs.
  destruct (perform Title (session w2)) as [[title|e] s1]; simpl;
    [|reflexivity].
  destruct (perform EvaluateReadable s1) as [[content|e] s2]; simpl.
  - destruct (perform Url s2) as [[u|e] s3]; reflexivity.
  - destruct (perform (InnerText (py "body")) s2) as [[text|e'] s3]; simpl;
      destruct (perform Url s3) as [[u|e''] s4]; reflexivity.
Qed.

(** The ReadPage branch of the dispatcher. *)
Lemma read_page_branch (cmd : pyval) (timeout_ms : Z) :
  handle_command (PStr (py "ReadPage")) cmd timeout_ms
  = bind (invoke Title) (fun title =>
    bind extract_readable (fun content =>
    bind (invoke Url) (fun url' =>
    ret (success [(py "title", PStr title); (py "url", PStr url');
                  (py "content", PStr content)])))).
Proof. reflexivity. Qed.

(** A call on the driver followed by the rest of a computation. *)
Lemma bind_invoke {A B} (c : call A) (k : A -> M Session B)
    (w : world Session) :
  bind (invoke c) k w
  = match perform c (session w) with
    | (Ok a, s') =>
        k a {| session := s'; calls := calls w ++ [Called c];
               stdout := stdout w |}
    | (Raise e, s') =>
        (Raise e, {| session := s'; calls := calls w ++ [Called c];
                     stdout := stdout w |})
    end.
Proof.
  unfold bind, invoke. now destruct (perform c (session w)) as [[a|e] s'].
Qed.

(** What the extraction returns depends on the session alone. *)
Lemma extract_readable_of_session (w1 w2 : world Session) :
  session w1 = session w2 ->
  fst (extract_readable w1) = fst (extract_readable w2)
  /\ session (snd (extract_readable w1)) = session (snd (extract_readable w2))
  /\ exists cs,
       calls (snd (extract_readable w1))
       = calls w1 ++ Called EvaluateReadable :: cs
       /\ calls (snd (extract_readable w2))
          = calls w2 ++ Called EvaluateReadable :: cs.
Proof.
  intros Hs. unfold extract_readable, try_except, bind, invoke, ret.
  rewrite Hs.
  destruct (perform EvaluateReadable (session w2)) as [[content|e] s1]; simpl.
  - split; [reflexivity|]. split; [reflexivity|].
    exists []. split; reflexivity.
  - destruct (perform (InnerText (py "body")) s1) as [[text|e'] s2]; simpl;
      (split; [reflexivity|]); (split; [reflexivity|]);
      exists [Called (InnerText (py "body"))];
      rewrite <- !app_assoc; split; reflexivity.
Qed.

(** The calls of two ReadPage commands on the same session. *)
Lemma read_page_calls (cmd1 cmd2 : pyval) (t1 t2 : Z)
    (w1 w2 : world Session) :
  session w1 = session w2 ->
  exists cs,
    calls (snd (handle_command (PStr (py "ReadPage")) cmd1 t1 w1))
    = calls w1 ++ Called Title :: cs
    /\ calls (snd (handle_command (PStr (py "ReadPage")) cmd2 t2 w2))
       = calls w2 ++ Called Title :: cs.
Proof.
  intros Hs. rewrite !read_page_branch, !bind_invoke. rewrite Hs.
  destruct (perform Title (session w2)) as [[title|e] s1]; simpl;
    [|exists []; split; reflexivity].
  set (v1 := {| session := s1; calls := calls w1 ++ [Called Title];
                stdout := stdout w1 |}).
  set (v2 := {| session := s1; calls := calls w2 ++ [Called Title];
                stdout := stdout w2 |}).
  destruct (extract_readable_of_session v1 v2 eq_refl)
    as (Hr & Hs' & cs & Hc1 & Hc2).
  unfold bind at 1 3.
  destruct (extract_readable v1) as [r1 x1], (extract_readable v2) as [r2 x2].
  simpl in Hr, Hs', Hc1, Hc2. subst r2.
  destruct r1 as [content|e].
  - rewrite !bind_invoke. rewrite Hs'.
    destruct (perform Url (session x2)) as [[u|e] s3]; simpl;
      exists (Called EvaluateReadable :: cs ++ [Called Url]);
      rewrite Hc1, Hc2; subst v1 v2; simpl;
      rewrite <- !app_assoc; simpl; split; reflexivity.
  - exists (Called EvaluateReadable :: cs). simpl.
    rewrite Hc1, Hc2. subst v1 v2. simpl.
    rewrite <- !app_assoc. split; reflexivity.
Qed.

(** C7.  ReadPage computes its answer from the page, anew at every command.
    Two consecutive ReadPage commands on an unchanged page (the first leaves
    the session as it found it) give the same answer, content included, and
    the second makes the calls of the first on the driver again.  The answer
    depends on the session alone: not on the calls made before, the lines
    written before, the other fields of the command.  And it is computed on
    the page: once the title is read, the page is evaluated, and the content
    of the response is what the extraction returns there. *)
Theorem read_page_idempotent (cmd1 cmd2 : pyval) (timeout_ms : Z)
    (w : world Session) :
  let first := handle_command (PStr (py "ReadPage")) cmd1 timeout_ms w in
  let second :=
    handle_command (PStr (py "ReadPage")) cmd2 timeout_ms (snd first) in
  (session (snd first) = session w ->
   fst second = fst first
   /\ exists cs,
        calls (snd first) = calls w ++ Called Title :: cs
        /\ calls (snd second) = calls (snd first) ++ Called Title :: cs)
  /\ (forall w' : world Session,
        session w' = session w ->
        fst (handle_command (PStr (py "ReadPage")) cmd2 timeout_ms w')
        = fst first)
  /\ (forall (title : pystr) (s1 : Session),
        perform Title (session w) = (Ok title, s1) ->
        let w1 := {| session := s1; calls := calls w ++ [Called Title];
                     stdout := stdout w |} in
        (exists cs,
           calls (snd first)
           = calls w ++ Called Title :: Called EvaluateReadable :: cs)
        /\ (forall response,
              fst first = Ok response ->
              exists content,
                fst (extract_readable w1) = Ok content
                /\ content_of response = Some (PStr content))).
Proof.
  intros first second. split; [|split].
  - intros Hsame. split; [now apply read_page_of_session|].
    destruct (read_page_calls cmd1 cmd2 timeout_ms timeout_ms w (snd first)
                (eq_sym Hsame)) as (cs & H1 & H2).
    exists cs. now split.
  - intros w' Hs. now apply read_page_of_session.
  - intros title s1 Ht w1. subst first.
    rewrite read_page_branch, bind_invoke, Ht. fold w1.
    destruct (extract_readable_of_session w1 w1 eq_refl)
      as (_ & _ & cs & Hc & _).
    unfold bind at 1 3.
    destruct (extract_readable w1) as [[content|e] x1]; simpl in Hc.
    + rewrite !bind_invoke.
      destruct (perform Url (session x1)) as [[u|e] s3]; simpl; split.
      * exists (cs ++ [Called Url]). rewrite Hc. subst w1. simpl.
        rewrite <- !app_assoc. reflexivity.
      * intros response [= <-]. exists content. split; reflexivity.
      * exists (cs ++ [Called Url]). rewrite Hc. subst w1. simpl.
        rewrite <- !app_assoc. reflexivity.
      * discriminate.
    + simpl. split; [|discriminate].
      exists cs. rewrite Hc. subst w1. simpl.
      rewrite <- !app_assoc. reflexivity.
Qed.

End Extractor.

End ExtractorFacts.

(* ================================================================== *)
(** ** The teardown *)

Module TeardownFacts.

Import Bridge Protocol.

Section Teardown.

Context {lib : PyLib} {Session : Type} {drv : Playwright Session}.

(** The teardown never raises. *)
Lemma cleanup_completes (w : world Session) : fst (cleanup w) = Ok tt.
Proof.
  unfold cleanup, try_except.
  destruct (bind _ _ w) as [[[]|e] w1]; reflexivity.
Qed.

(** C1, as the code has it.  The teardown attempts the release steps in the
    order context-close, browser-close, driver-stop, inside one guarded
    block: a step is attempted when every step before it completed, the
    first failure ends the teardown, and the teardown itself never raises. *)
Theorem cleanup_in_order_swallows_failure (w : world Session) :
  fst (cleanup w) = Ok tt
  /\ stdout (snd (cleanup w)) = stdout w
  /\ ((exists e s1,
         perform ContextClose (session w) = (Raise e, s1)
         /\ calls (snd (cleanup w)) = calls w ++ [Called ContextClose])
      \/ (exists e s1 s2,
            perform ContextClose (session w) = (Ok tt, s1)
            /\ perform BrowserClose s1 = (Raise e, s2)
            /\ calls (snd (cleanup w))
               = calls w ++ [Called ContextClose; Called BrowserClose])
      \/ (exists s1 s2,
            perform ContextClose (session w) = (Ok tt, s1)
            /\ perform BrowserClose s1 = (Ok tt, s2)
            /\ calls (snd (cleanup w)) = calls w ++ release_steps)).
Proof.
  unfold cleanup, try_except, bind, invoke, ret, release_steps.
  destruct (perform ContextClose (session w)) as [[[]|e1] s1] eqn:E1; simpl.
  - destruct (perform BrowserClose s1) as [[[]|e2] s2] eqn:E2; simpl.
    + destruct (perform Stop s2) as [[[]|e3] s3] eqn:E3; simpl;
        (split; [reflexivity|]); (split; [reflexivity|]);
        right; right; exists s1, s2; rewrite <- !app_assoc; auto.
    + split; [reflexivity|]. split; [reflexivity|].
      right; left. exists e2, s1, s2. rewrite <- !app_assoc. auto.
  - split; [reflexivity|]. split; [reflexivity|].
    left. now exists e1, s1.
Qed.

End Teardown.

End TeardownFacts.

(* ================================================================== *)
(** ** The line protocol *)

Module LoopFacts.

Import Bridge Protocol PyStrFacts.

Section Loop.

Context {lib : PyLib} {Session : Type} {drv : Playwright Session}.

Lemma silent_ret {A} (a : A) : silent (ret a : M Session A).
Proof. intros w. reflexivity. Qed.

Lemma silent_lift {A} (r : result A) : silent (lift r : M Session A).
Proof. intros w. reflexivity. Qed.

Lemma silent_invoke {A} (c : call A) : silent (invoke c).
Proof.
  intros w. unfold invoke.
  now destruct (perform c (session w)).
Qed.

Lemma silent_bind {A B} (m : M Session A) (k : A -> M Session B) :
  silent m -> (forall a, silent (k a)) -> silent (bind m k).
Proof.
  intros Hm Hk w. unfold bind. specialize (Hm w).
  destruct (m w) as [[a|e] w1]; simpl in *; [|exact Hm].
  now rewrite Hk.
Qed.

Lemma silent_try_except {A} (m : M Session A) (h : exn -> M Session A) :
  silent m -> (forall e, silent (h e)) -> silent (try_except m h).
Proof.
  intros Hm Hh w. unfold try_except. specialize (Hm w).
  destruct (m w) as [[a|e] w1]; simpl in *; [exact Hm|].
  now rewrite Hh.
Qed.

Ltac silence :=
  repeat first
    [ apply silent_ret | apply silent_lift | apply silent_invoke
    | apply silent_bind; [|intros ?]
    | apply silent_try_except; [|intros ?]
    | match goal with
      | |- silent (if ?c then _ else _) => destruct c
      end ].

Lemma silent_extract_readable : silent extract_readable.
Proof. unfold extract_readable. silence. Qed.

(** The dispatcher writes nothing: the response is its return value. *)
Lemma silent_handle_command (action cmd : pyval) (timeout_ms : Z) :
  silent (handle_command action cmd timeout_ms).
Proof.
  unfold handle_command.
  silence; try apply silent_extract_readable; silence.
Qed.

Lemma respond_failure (msg : pystr) (w : world Session) :
  respond (failure msg) w = (Ok tt, written w (failure msg)).
Proof. reflexivity. Qed.

(** One line with content: the loop body returns the action of the line
    and has written exactly one more line. *)
Lemma process_line_one_response (timeout_ms : Z) (raw : pystr)
    (w : world Session) :
  exists (r : pyval) (w1 : world Session),
    process_line timeout_ms (strip raw) w = (Ok (action_of raw), written w1 r)
    /\ stdout w1 = stdout w.
Proof.
  unfold process_line, action_of.
  destruct (json_loads (strip raw)) as [cmd|e].
  - destruct (py_get cmd (py "action") (PStr [])) as [action|e].
    + pose proof (silent_handle_command action cmd timeout_ms w) as Hs.
      unfold try_except, bind at 1.
      destruct (handle_command action cmd timeout_ms w) as [[result|e] w1];
        simpl in Hs.
      * unfold respond, bind, lift.
        destruct (json_dumps result) as [line|e].
        -- now exists line, w1.
        -- now exists (exception_response e), w1.
      * now exists (exception_response e), w1.
    + now exists (exception_response e), w.
  - now exists (exception_response e), w.
Qed.

Lemma blank_strip (raw : pystr) : blank raw = true <-> strip raw = [].
Proof.
  unfold blank. destruct (strip raw); split; congruence.
Qed.

Lemma read_loop_blank (timeout_ms : Z) (raw : pystr) (rest : list pystr) :
  blank raw = true ->
  read_loop timeout_ms (raw :: rest) = read_loop timeout_ms rest.
Proof.
  intros Hb. apply blank_strip in Hb. simpl. now rewrite Hb.
Qed.

Lemma read_loop_content (timeout_ms : Z) (raw : pystr) (rest : list pystr)
    (w : world Session) :
  blank raw = false ->
  read_loop timeout_ms (raw :: rest) w
  = bind (process_line timeout_ms (strip raw))
      (fun action =>
         if eq_str action (py "Close") then ret rest
         else read_loop timeout_ms rest) w.
Proof.
  unfold blank. simpl. destruct (strip raw); [discriminate|reflexivity].
Qed.

(** A line that does not decode: one error response, and the loop goes on
    to the next line. *)
Lemma read_loop_malformed (timeout_ms : Z) (raw : pystr) (rest : list pystr)
    (e : exn) (w : world Session) :
  blank raw = false ->
  json_loads (strip raw) = Raise e ->
  read_loop timeout_ms (raw :: rest) w
  = read_loop timeout_ms rest (written w (exception_response e)).
Proof.
  intros Hb He. rewrite read_loop_content by exact Hb.
  unfold bind, process_line. rewrite He. reflexivity.
Qed.

(** The loop ends normally, has read the lines up to and including the
    first Close command, and has written one line for each of those with
    content. *)
Lemma read_loop_counts (timeout_ms : Z) (stdin : list pystr) :
  forall w : world Session,
  exists (unread : list pystr) (w' : world Session) (responses : list pyval),
    read_loop timeout_ms stdin w = (Ok unread, w')
    /\ stdin = processed stdin ++ unread
    /\ stdout w' = stdout w ++ responses
    /\ List.length responses = content_lines (processed stdin)
    /\ (unread = []
        \/ exists before last,
             processed stdin = before ++ [last] /\ closes last = true).
Proof.
  induction stdin as [|raw rest IH]; intros w.
  - exists [], w, []. simpl. rewrite app_nil_r. repeat split. now left.
  - destruct (blank raw) eqn:Hb.
    + rewrite read_loop_blank by exact Hb.
      destruct (IH w) as (unread & w' & rs & Hrun & Hsplit & Hout & Hlen & Hend).
      assert (Hc : closes raw = false) by (unfold closes; now rewrite Hb).
      exists unread, w', rs. simpl processed. rewrite Hc.
      repeat split; try assumption.
      * simpl. now f_equal.
      * unfold content_lines in *. simpl. now rewrite Hb.
      * destruct Hend as [->|(before & last & Hp & Hl)]; [now left|right].
        exists (raw :: before), last. simpl. now rewrite Hp.
    + rewrite read_loop_content by exact Hb.
      destruct (process_line_one_response timeout_ms raw w)
        as (r & w1 & Hp & Hw1).
      unfold bind. rewrite Hp.
      assert (Hc : closes raw = eq_str (action_of raw) (py "Close"))
        by (unfold closes; now rewrite Hb).
      simpl processed. rewrite Hc.
      destruct (eq_str (action_of raw) (py "Close")) eqn:Hclose.
      * exists rest, (written w1 r), [r]. repeat split.
        -- simpl. now rewrite Hw1.
        -- unfold content_lines. simpl. now rewrite Hb.
        -- right. exists [], raw. now split.
      * destruct (IH (written w1 r))
          as (unread & w' & rs & Hrun & Hsplit & Hout & Hlen & Hend).
        exists unread, w', (r :: rs). repeat split.
        -- exact Hrun.
        -- simpl. now f_equal.
        -- rewrite Hout. simpl. rewrite Hw1, <- app_assoc. reflexivity.
        -- unfold content_lines in *. simpl. rewrite Hb. simpl. now f_equal.
        -- destruct Hend as [->|(before & last & Hp' & Hl)]; [now left|right].
           exists (raw :: before), last. simpl. now rewrite Hp'.
Qed.

(** C3.  From any world and for any lines of input, the loop ends normally
    having read the lines up to and including the first Close command (all
    of them when there is none), and has written exactly one line for each
    line with content among them: N such lines give N responses, and only a
    Close command or the end of the input stops the reading.  A blank line
    gives no response; a line that does not decode gives one
    [{success: false, error: ...}] response and the loop goes on. *)
Theorem one_response_per_content_line (timeout_ms : Z) (stdin : list pystr)
    (w : world Session) :
  (exists (unread : list pystr) (w' : world Session) (responses : list pyval),
     read_loop timeout_ms stdin w = (Ok unread, w')
     /\ stdin = processed stdin ++ unread
     /\ stdout w' = stdout w ++ responses
     /\ List.length responses = content_lines (processed stdin)
     /\ (unread = []
         \/ exists before last,
              processed stdin = before ++ [last] /\ closes last = true))
  /\ (forall raw rest,
        stdin = raw :: rest -> blank raw = true ->
        read_loop timeout_ms stdin w = read_loop timeout_ms rest w)
  /\ (forall raw rest e,
        stdin = raw :: rest -> blank raw = false ->
        json_loads (strip raw) = Raise e ->
        read_loop timeout_ms stdin w
        = read_loop timeout_ms rest
            (written w (failure (exc_type e ++ py ": " ++ exc_msg e)))).
Proof.
  split; [apply read_loop_counts|]. split.
  - intros raw rest -> Hb. now rewrite read_loop_blank.
  - intros raw rest e -> Hb He. now apply read_loop_malformed.
Qed.

(** C5.  A Close command is answered by exactly one line,
    [{success: true, data: {status: "closed"}}], and ends the loop: the
    lines after it are left unread and give no response, and no call is
    made on the driver. *)
Theorem close_ends_loop (timeout_ms : Z) (raw : pystr) (rest : list pystr)
    (d : list (pystr * pyval)) (w : world Session) :
  blank raw = false ->
  json_loads (strip raw) = Ok (PDict d) ->
  dict_lookup (py "action") d = Some (PStr (py "Close")) ->
  read_loop timeout_ms (raw :: rest) w
  = (Ok rest, written w (success [(py "status", PStr (py "closed"))])).
Proof.
  intros Hb Hj Ha. rewrite read_loop_content by exact Hb.
  unfold bind at 1, process_line. rewrite Hj. unfold py_get. rewrite Ha.
  reflexivity.
Qed.

(** C9.  A line that decodes to an object without an [action] entry is
    handled with the empty string for action: the response is
    [{success: false, error: "Unknown action: "}], no call is made on the
    driver, and the loop goes on to the next line. *)
Theorem missing_action_is_unknown (timeout_ms : Z) (raw : pystr)
    (rest : list pystr) (d : list (pystr * pyval)) (w : world Session) :
  blank raw = false ->
  json_loads (strip raw) = Ok (PDict d) ->
  dict_lookup (py "action") d = None ->
  read_loop timeout_ms (raw :: rest) w
  = read_loop timeout_ms rest (written w (failure (py "Unknown action: "))).
Proof.
  intros Hb Hj Ha. rewrite read_loop_content by exact Hb.
  unfold bind at 1, process_line. rewrite Hj. unfold py_get. rewrite Ha.
  unfold try_except, bind at 1.
  rewrite DispatcherFacts.handle_command_unknown
    by (unfold actions; simpl; intuition discriminate).
  reflexivity.
Qed.

End Loop.

End LoopFacts.

(* ================================================================== *)
(** ** The whole run of the bridge *)

Module MainFacts.

Import Bridge Protocol.

Section Main.

Context {lib : PyLib} {Session : Type} {drv : Playwright Session}.

(** Once the session has started, [main] ends normally whatever the input
    and whatever the teardown meets: the ready line is written first, the
    loop runs, and the teardown follows. *)
Lemma main_ends_normally (a : args) (stdin : list pystr)
    (w w1 : world Session) :
  startup a w = (Ok tt, w1) ->
  exists (unread : list pystr) (w2 : world Session),
    read_loop (timeout a * 1000) stdin
      (written w1 (success [(py "status", PStr (py "ready"))]))
    = (Ok unread, w2)
    /\ main a true stdin w = (Ok unread, snd (cleanup w2)).
Proof.
  intros Hstart.
  destruct (LoopFacts.read_loop_counts (timeout a * 1000) stdin
              (written w1 (success [(py "status", PStr (py "ready"))])))
    as (unread & w2 & rs & Hloop & _).
  exists unread, w2. split; [exact Hloop|].
  unfold main. cbv beta zeta. change (negb true) with false. cbv iota.
  unfold bind at 1. rewrite Hstart.
  unfold bind at 1.
  change (respond (success [(py "status", PStr (py "ready"))]) w1)
    with (Ok tt, written w1 (success [(py "status", PStr (py "ready"))])).
  cbv iota. unfold bind at 1. rewrite Hloop. unfold bind, ret.
  pose proof (TeardownFacts.cleanup_completes w2) as Hok.
  destruct (cleanup w2) as [r w3]. simpl in *. now rewrite Hok.
Qed.

End Main.

End MainFacts.

(* ================================================================== *)
(** ** The agent SDK *)

Module SdkFacts.

Import Sdk.

Section Run.

Context {lib : PyLib}.


(** The response to an error is a string, which always encodes. *)
Lemma respond_error (msg : pystr) (o : output) :
  respond (PStr msg) PNone o
  = (Done tt,
     {| stdout := stdout o
                  ++ [PDict [(py "type", PStr (py "response"));
                             (py "text", PStr msg)]];
        stderr := stderr o |}).
Proof. reflexivity. Qed.



(** The statements of [run] before the call of the handler are
    [handler_input]. *)
Lemma before_handler (self : Agent) (env : environment) (A : Type)
    (k : pyval -> pyval -> M A) (o : output) :
  bind (match _setup self with
        | Some setup => lift setup
        | None => ret tt
        end)
    (fun _ =>
       bind (read_input env) (fun data =>
       bind (lift (py_get data (py "message") (PStr []))) (fun message =>
       bind (lift (py_get data (py "context") (PDict []))) (fun context =>
       k message context)))) o
  = bind (handler_input self env) (fun mc => k (fst mc) (snd mc)) o.
Proof.
  assert (H : forall o1,
    bind (read_input env) (fun data =>
    bind (lift (py_get data (py "message") (PStr []))) (fun message =>
    bind (lift (py_get data (py "context") (PDict []))) (fun context =>
    k message context))) o1
    = bind
        (bind (read_input env) (fun data =>
         bind (lift (py_get data (py "message") (PStr []))) (fun message =>
         bind (lift (py_get data (py "context") (PDict []))) (fun context =>
         ret (message, context)))))
        (fun mc => k (fst mc) (snd mc)) o1).
  { intros o1. unfold bind.
    destruct (read_input env o1) as [[data|e|n] o2]; try reflexivity.
    unfold lift.
    destruct (py_get data (py "message") (PStr [])) as [m|e]; try reflexivity.
    destruct (py_get data (py "context") (PDict [])) as [c|e]; reflexivity. }
  unfold handler_input. unfold bind at 1. unfold bind at 5. unfold bind at 5.
  destruct (_setup self) as [[[]|e]|]; unfold ret at 1, lift at 1;
    try reflexivity; apply H.
Qed.

(** The [except] clause writes one response and exits with status 1. *)
Lemma on_error_exits (e : exn) (o : output) :
  exists o',
    on_error e o = (Exited 1%Z, o')
    /\ stdout o' = stdout o ++ [PDict [(py "type", PStr (py "response"));
                                       (py "text", PStr (py "Error: " ++ exc_msg e))]].
Proof. eexists. split; reflexivity. Qed.


(** The [finally] clause completes and writes nothing on standard output. *)
Lemma on_exit_completes (self : Agent) (o : output) :
  exists o', on_exit self o = (Done tt, o') /\ stdout o' = stdout o.
Proof.
  unfold on_exit.
  destruct (_teardown self) as [[[]|e]|]; unfold try_except, lift, log, ret;
    eexists; split; reflexivity.
Qed.



End Run.

End SdkFacts.

(* ================================================================== *)
(** ** Examples on the sample library and driver *)

Module Examples.

Import Bridge Protocol Samples.

#[local] Existing Instance sample_lib.
#[local] Existing Instance sample_driver.

(** C1, as stated, fails on a browser whose context refuses to close: the
    first release step raises, the exception is swallowed, and neither the
    closing of the browser nor the stopping of the driver is attempted. *)
Lemma cleanup_stops_at_first_failure :
  fst (perform ContextClose stuck_page) = Raise target_closed
  /\ calls (snd (cleanup (start stuck_page))) = [Called ContextClose]
  /\ ~ all_release_steps_attempted (start stuck_page).
Proof.
  split; [reflexivity|]. split; [reflexivity|].
  unfold all_release_steps_attempted. vm_compute. discriminate.
Qed.

Lemma unknown_action_response_witness :
  handle_command (PStr (py "Fly")) fly_cmd 30000 (start blank_page)
  = (Ok (failure (py "Unknown action: Fly")), start blank_page).
Proof.
  apply (DispatcherFacts.unknown_action_response (x := py "Fly")).
  vm_compute. intuition discriminate.
Defined.

Lemma navigate_without_url_witness :
  handle_command (PStr (py "Navigate")) navigate_cmd 30000 (start blank_page)
  = (Ok (failure (py "Missing 'url' parameter")), start blank_page).
Proof.
  apply DispatcherFacts.navigate_without_url. reflexivity.
Defined.

Lemma empty_field_as_absent_witness :
  handle_command (PStr (py "Type")) (PDict type_empty_text) 30000
    (start blank_page)
  = handle_command (PStr (py "Type"))
      (PDict (dict_remove (py "text") type_empty_text)) 30000
      (start blank_page).
Proof.
  apply (DispatcherFacts.empty_field_as_absent (py "Type") (py "text")).
  - right. left. reflexivity.
  - reflexivity.
Defined.


Lemma read_page_idempotent_witness :
  (fst (handle_command (PStr (py "ReadPage")) read_page_cmd 30000
          (snd (handle_command (PStr (py "ReadPage")) read_page_cmd 30000
                  (start blank_page))))
   = fst (handle_command (PStr (py "ReadPage")) read_page_cmd 30000
            (start blank_page))
   /\ exists cs,
        calls (snd (handle_command (PStr (py "ReadPage")) read_page_cmd
                      30000 (start blank_page)))
        = calls (start blank_page) ++ Called Title :: cs
        /\ calls
             (snd (handle_command (PStr (py "ReadPage")) read_page_cmd 30000
                     (snd (handle_command (PStr (py "ReadPage"))
                             read_page_cmd 30000 (start blank_page)))))
           = calls (snd (handle_command (PStr (py "ReadPage")) read_page_cmd
                           30000 (start blank_page)))
             ++ Called Title :: cs)
  /\ exists content,
       fst (extract_readable
              {| session := blank_page;
                 calls := calls (start blank_page) ++ [Called Title];
                 stdout := stdout (start blank_page) |})
       = Ok content
       /\ content_of
            (success [(py "title", PStr (py "Example"));
                      (py "url", PStr (py "about:blank"));
                      (py "content", PStr (py "Hello"))])
          = Some (PStr content).
Proof.
  split.
  - apply (proj1 (ExtractorFacts.read_page_idempotent read_page_cmd
                    read_page_cmd 30000 (start blank_page))).
    reflexivity.
  - refine (proj2 (proj2 (proj2 (ExtractorFacts.read_page_idempotent
                                   read_page_cmd read_page_cmd 30000
                                   (start blank_page)))
                     (py "Example") blank_page eq_refl) _ _).
    reflexivity.
Defined.

Lemma one_response_per_content_line_witness :
  read_loop 30000 five_lines (start blank_page)
  = read_loop 30000 (List.tl five_lines)
      (written (start blank_page)
         (failure (py "JSONDecodeError: Expecting value: line 1 column 1 (char 0)")))
  /\ read_loop 30000 (List.tl five_lines) (start blank_page)
     = read_loop 30000 (List.tl (List.tl five_lines)) (start blank_page).
Proof.
  split.
  - apply (proj2 (proj2 (LoopFacts.one_response_per_content_line
                           30000 five_lines (start blank_page)))
             malformed_line (List.tl five_lines) json_decode_error);
      reflexivity.
  - apply (proj1 (proj2 (LoopFacts.one_response_per_content_line
                           30000 (List.tl five_lines) (start blank_page)))
             (py "  ") (List.tl (List.tl five_lines)));
      reflexivity.
Defined.

Lemma close_ends_loop_witness :
  read_loop 30000 [close_line; read_page_line] (start blank_page)
  = (Ok [read_page_line],
     written (start blank_page) (success [(py "status", PStr (py "closed"))])).
Proof.
  apply (LoopFacts.close_ends_loop 30000 close_line [read_page_line]
           (d := [(py "action", PStr (py "Close"))]));
    reflexivity.
Defined.

Lemma missing_action_is_unknown_witness :
  read_loop 30000 [empty_object_line; close_line] (start blank_page)
  = read_loop 30000 [close_line]
      (written (start blank_page) (failure (py "Unknown action: "))).
Proof.
  apply (LoopFacts.missing_action_is_unknown 30000 empty_object_line
           [close_line] (d := []));
    reflexivity.
Defined.


End Examples.

(* ================================================================== *)
(** * Further properties of Python strings *)

Module PyStrMore.

Import PyStr.

Lemma lstrip_head (s : pystr) (c : codepoint) (t : pystr) :
  lstrip s = c :: t -> isspace c = false.
Proof.
  induction s as [|x s IH]; simpl; [discriminate|].
  destruct (isspace x) eqn:Hx; [exact IH|].
  now intros [= <- <-].
Qed.

Lemma lstrip_fixed (c : codepoint) (t : pystr) :
  isspace c = false -> lstrip (c :: t) = c :: t.
Proof. intros H. simpl. now rewrite H. Qed.

Lemma lstrip_idempotent (s : pystr) : lstrip (lstrip s) = lstrip s.
Proof.
  destruct (lstrip s) as [|c t] eqn:E; [reflexivity|].
  apply lstrip_fixed. exact (lstrip_head s E).
Qed.

Lemma rstrip_idempotent (s : pystr) : rstrip (rstrip s) = rstrip s.
Proof.
  unfold rstrip. now rewrite rev_involutive, lstrip_idempotent.
Qed.

Lemma lstrip_keeps_last (a : pystr) (c : codepoint) :
  isspace c = false -> exists a', lstrip (a ++ [c]) = a' ++ [c].
Proof.
  intros Hc. induction a as [|x a IH]; simpl.
  - rewrite Hc. now exists [].
  - destruct (isspace x); [exact IH|]. now exists (x :: a).
Qed.

Lemma rstrip_keeps_head (c : codepoint) (t : pystr) :
  isspace c = false -> exists t', rstrip (c :: t) = c :: t'.
Proof.
  intros Hc. unfold rstrip. simpl rev.
  destruct (@lstrip_keeps_last (rev t) c Hc) as [a' ->].
  exists (rev a'). now rewrite rev_app_distr.
Qed.

(** Stripping is idempotent: a stripped string has no whitespace left at
    either end, so stripping it again gives it back. *)
Lemma strip_idempotent (s : pystr) : strip (strip s) = strip s.
Proof.
  unfold strip.
  destruct (lstrip s) as [|c t] eqn:E; [reflexivity|].
  pose proof (lstrip_head s E) as Hc.
  destruct (@rstrip_keeps_head c t Hc) as [t' Ht].
  assert (Hl : lstrip (rstrip (c :: t)) = rstrip (c :: t))
    by (rewrite Ht; now apply lstrip_fixed).
  rewrite Hl. apply rstrip_idempotent.
Qed.

End PyStrMore.

(* ================================================================== *)
(** * Further properties of the bridge *)

Module BridgeMore.

Import Bridge Protocol Commands PyStrFacts.

Section More.

Context {lib : PyLib} {Session : Type} {drv : Playwright Session}.

(** X1.  The extraction never raises: whatever the driver does,
    [extract_readable] returns a string, and when both the script and the
    inner text of the body raise, that string is the fixed placeholder. *)
Theorem extract_readable_never_raises (w : world Session) :
  (exists s : pystr, fst (extract_readable w) = Ok s)
  /\ (extracted (session w) = None ->
      fst (extract_readable w) = Ok placeholder).
Proof.
  unfold extract_readable, extracted, try_except, bind, invoke, ret.
  destruct (perform EvaluateReadable (session w)) as [[content|e] s1]; simpl.
  - split; [eauto|discriminate].
  - destruct (perform (InnerText (py "body")) s1) as [[text|e'] s2]; simpl.
    + split; [eauto|discriminate].
    + split; [eauto|reflexivity].
Qed.

(** A string equal to a literal is that literal. *)
Lemma eq_str_true (v : pyval) (s : pystr) : eq_str v s = true -> v = PStr s.
Proof.
  destruct v; simpl; try discriminate.
  intros H. apply eqb_eq in H. now subst.
Qed.

(** The Close command is answered without a call: it cannot raise. *)
Lemma handle_command_close (action cmd : pyval) (timeout_ms : Z)
    (w : world Session) :
  eq_str action (py "Close") = true ->
  handle_command action cmd timeout_ms w
  = (Ok (success [(py "status", PStr (py "closed"))]), w).
Proof.
  intros H. apply eq_str_true in H. subst action. reflexivity.
Qed.

(** X2.  A command on which the dispatcher raises (a timeout, an element
    that is not found, a failed navigation) is answered by one error line
    that carries the kind of the exception and its message, and the loop
    goes on to the next line from the world the failed command left. *)
Theorem driver_failure_is_answered (timeout_ms : Z) (raw : pystr)
    (rest : list pystr) (cmd action : pyval) (e : exn)
    (w w1 : world Session) :
  blank raw = false ->
  json_loads (strip raw) = Ok cmd ->
  py_get cmd (py "action") (PStr []) = Ok action ->
  handle_command action cmd timeout_ms w = (Raise e, w1) ->
  read_loop timeout_ms (raw :: rest) w
  = read_loop timeout_ms rest
      (written w1 (failure (exc_type e ++ py ": " ++ exc_msg e))).
Proof.
  intros Hb Hj Ha Hh. rewrite LoopFacts.read_loop_content by exact Hb.
  unfold bind at 1, process_line. rewrite Hj, Ha.
  unfold try_except, bind at 1. rewrite Hh.
  unfold bind, exception_response. rewrite LoopFacts.respond_failure.
  unfold ret.
  destruct (eq_str action (py "Close")) eqn:Hc; [|reflexivity].
  rewrite (@handle_command_close action cmd timeout_ms w Hc) in Hh.
  discriminate.
Qed.

(** X3.  A line that decodes to a JSON value that is not an object (a list,
    a number, a string, null) is answered by one [AttributeError] line that
    names the type of the value; no call is made on the driver and the loop
    goes on. *)
Theorem non_object_line_is_answered (timeout_ms : Z) (raw : pystr)
    (rest : list pystr) (v : pyval) (w : world Session) :
  blank raw = false ->
  json_loads (strip raw) = Ok v ->
  (forall d, v <> PDict d) ->
  read_loop timeout_ms (raw :: rest) w
  = read_loop timeout_ms rest
      (written w
         (failure (py "AttributeError: '" ++ type_name v
                   ++ py "' object has no attribute 'get'"))).
Proof.
  intros Hb Hj Hv. rewrite LoopFacts.read_loop_content by exact Hb.
  unfold bind at 1, process_line. rewrite Hj.
  destruct v; try reflexivity.
  now elim (Hv d).
Qed.

(** X4.  The first field an action checks counts as missing whenever its
    value is falsy (null, false, 0, an empty string, list or object), not
    only when it is absent: the answer is the missing-parameter error of
    that field and no call is made on the driver. *)
Theorem falsy_field_is_missing (action field : pystr) (cmd v : pyval)
    (timeout_ms : Z) (w : world Session) :
  In (action, field) first_checked ->
  py_get cmd field (PStr []) = Ok v ->
  truthy v = false ->
  handle_command (PStr action) cmd timeout_ms w
  = (Ok (failure (missing_parameter field)), w).
Proof.
  intros Hin Hget Hv. unfold first_checked in Hin.
  destruct Hin as [[= <- <-]|[[= <- <-]|[[= <- <-]|[]]]];
    unfold handle_command.
  - replace (eq_str (PStr (py "Navigate")) (py "Navigate")) with true
      by reflexivity.
    rewrite Hget. unfold bind, lift. now rewrite Hv.
  - replace (eq_str (PStr (py "Click")) (py "Navigate")) with false
      by reflexivity.
    replace (eq_str (PStr (py "Click")) (py "Click")) with true
      by reflexivity.
    rewrite Hget. unfold bind, lift. now rewrite Hv.
  - replace (eq_str (PStr (py "Type")) (py "Navigate")) with false
      by reflexivity.
    replace (eq_str (PStr (py "Type")) (py "Click")) with false
      by reflexivity.
    replace (eq_str (PStr (py "Type")) (py "Type")) with true
      by reflexivity.
    rewrite Hget. unfold bind at 1, lift at 1.
    assert (Ht : exists t, py_get cmd (py "text") (PStr []) = Ok t).
    { destruct cmd; try discriminate. unfold py_get.
      destruct (dict_lookup (py "text") d); eauto. }
    destruct Ht as [t ->]. unfold bind, lift. now rewrite Hv.
Qed.

(** X5.  A Type command with a usable selector and a text that is missing
    or falsy is answered by the missing-parameter error of [text]; the page
    is not touched, so it does not matter whether the selector matches
    anything. *)
Theorem type_without_text (cmd selector text : pyval) (timeout_ms : Z)
    (w : world Session) :
  py_get cmd (py "selector") (PStr []) = Ok selector ->
  truthy selector = true ->
  py_get cmd (py "text") (PStr []) = Ok text ->
  truthy text = false ->
  handle_command (PStr (py "Type")) cmd timeout_ms w
  = (Ok (failure (py "Missing 'text' parameter")), w).
Proof.
  intros Hs Ts Ht Tt. unfold handle_command.
  replace (eq_str (PStr (py "Type")) (py "Navigate")) with false
    by reflexivity.
  replace (eq_str (PStr (py "Type")) (py "Click")) with false
    by reflexivity.
  replace (eq_str (PStr (py "Type")) (py "Type")) with true
    by reflexivity.
  rewrite Hs, Ht. unfold bind, lift. now rewrite Ts, Tt.
Qed.

(** X6.  An action that is not a string (a number, null, a list, an object)
    is never one of the six actions: the answer is the unknown-action error
    with [str(action)] for name, and no call is made on the driver. *)
Theorem non_string_action_is_unknown (action cmd : pyval) (timeout_ms : Z)
    (w : world Session) :
  (forall s, action <> PStr s) ->
  handle_command action cmd timeout_ms w
  = (Ok (failure (py "Unknown action: " ++ py_str action)), w).
Proof.
  intros Hs. unfold handle_command.
  destruct action; try reflexivity.
  now elim (Hs s).
Qed.

Lemma page_only_ret {A} (a : A) : page_only (ret a : M Session A).
Proof. intros w. exists []. now rewrite app_nil_r. Qed.

Lemma page_only_lift {A} (r : result A) : page_only (lift r : M Session A).
Proof. intros w. exists []. now rewrite app_nil_r. Qed.

Lemma page_only_invoke {A} (c : call A) :
  page_call (Called c) = true -> page_only (invoke c).
Proof.
  intros Hc w. exists [Called c]. unfold invoke.
  destruct (perform c (session w)). split; [reflexivity|].
  cbn [forallb]. now rewrite Hc.
Qed.

Lemma page_only_respond (data : pyval) :
  page_only (respond data : M Session unit).
Proof.
  intros w. exists []. unfold respond, bind, lift.
  destruct (json_dumps data); simpl; now rewrite app_nil_r.
Qed.

Lemma page_only_bind {A B} (m : M Session A) (k : A -> M Session B) :
  page_only m -> (forall a, page_only (k a)) -> page_only (bind m k).
Proof.
  intros Hm Hk w. unfold bind. destruct (Hm w) as (cs & Hcs & Hp).
  destruct (m w) as [[a|e] w1]; simpl in *; [|eauto].
  destruct (Hk a w1) as (cs' & Hcs' & Hp').
  exists (cs ++ cs'). rewrite Hcs', Hcs, app_assoc. split; [reflexivity|].
  rewrite forallb_app. now rewrite Hp, Hp'.
Qed.

Lemma page_only_try_except {A} (m : M Session A) (h : exn -> M Session A) :
  page_only m -> (forall e, page_only (h e)) -> page_only (try_except m h).
Proof.
  intros Hm Hh w. unfold try_except. destruct (Hm w) as (cs & Hcs & Hp).
  destruct (m w) as [[a|e] w1]; simpl in *; [eauto|].
  destruct (Hh e w1) as (cs' & Hcs' & Hp').
  exists (cs ++ cs'). rewrite Hcs', Hcs, app_assoc. split; [reflexivity|].
  rewrite forallb_app. now rewrite Hp, Hp'.
Qed.

Ltac on_page :=
  repeat first
    [ apply page_only_ret | apply page_only_lift | apply page_only_respond
    | apply page_only_invoke; reflexivity
    | apply page_only_bind; [|intros ?]
    | apply page_only_try_except; [|intros ?]
    | match goal with
      | |- page_only (if ?c then _ else _) => destruct c
      end ].

Lemma page_only_handle_command (action cmd : pyval) (timeout_ms : Z) :
  page_only (handle_command action cmd timeout_ms).
Proof.
  unfold handle_command, extract_readable. on_page.
Qed.

Lemma page_only_process_line (timeout_ms : Z) (line : pystr) :
  page_only (process_line timeout_ms line).
Proof.
  unfold process_line.
  destruct (json_loads line) as [cmd|e]; [|on_page].
  destruct (py_get cmd (py "action") (PStr [])) as [action|e]; [|on_page].
  on_page. apply page_only_handle_command.
Qed.

(** X7.  The command loop only ever makes calls on the page: whatever the
    lines of input, it never starts, closes or stops the browser, its
    context or the driver (a Close command included), so the session is
    released by the teardown alone. *)
Theorem read_loop_never_releases (timeout_ms : Z) (stdin : list pystr)
    (w : world Session) :
  exists cs : list event,
    calls (snd (read_loop timeout_ms stdin w)) = calls w ++ cs
    /\ forallb page_call cs = true.
Proof.
  revert w. change (page_only (read_loop timeout_ms stdin)).
  induction stdin as [|raw rest IH]; simpl.
  - apply page_only_ret.
  - destruct (strip raw); [exact IH|].
    apply page_only_bind; [apply page_only_process_line|].
    intros action. destruct (eq_str action (py "Close")); [|exact IH].
    apply page_only_ret.
Qed.

Lemma click_branch (cmd : pyval) (timeout_ms : Z) :
  handle_command (PStr (py "Click")) cmd timeout_ms
  = bind (lift (py_get cmd (py "selector") (PStr []))) (fun selector =>
      if negb (truthy selector) then
        ret (failure (py "Missing 'selector' parameter"))
      else
        bind (try_except (invoke (Click selector timeout_ms))
                (fun _ => invoke (ClickText selector timeout_ms))) (fun _ =>
        bind (invoke (WaitForLoadState (py "domcontentloaded") timeout_ms))
          (fun _ =>
        bind (invoke Title) (fun title =>
        bind (invoke Url) (fun url' =>
        ret (success [(py "clicked", selector); (py "title", PStr title);
                      (py "url", PStr url')])))))).
Proof. reflexivity. Qed.

(** X8.  Click falls back to the visible text: when the selector does not
    work as a CSS selector and clicking the first element with that text
    works, the command succeeds and reports the selector it was given, with
    the title and address of the page after the click. *)
Theorem click_falls_back_to_text (cmd selector : pyval) (timeout_ms : Z)
    (w : world Session) (e : exn) (s1 s2 s3 s4 s5 : Session)
    (title url' : pystr) :
  py_get cmd (py "selector") (PStr []) = Ok selector ->
  truthy selector = true ->
  perform (Click selector timeout_ms) (session w) = (Raise e, s1) ->
  perform (ClickText selector timeout_ms) s1 = (Ok tt, s2) ->
  perform (WaitForLoadState (py "domcontentloaded") timeout_ms) s2
  = (Ok tt, s3) ->
  perform Title s3 = (Ok title, s4) ->
  perform Url s4 = (Ok url', s5) ->
  handle_command (PStr (py "Click")) cmd timeout_ms w
  = (Ok (success [(py "clicked", selector); (py "title", PStr title);
                  (py "url", PStr url')]),
     {| session := s5;
        calls := calls w
                 ++ [Called (Click selector timeout_ms);
                     Called (ClickText selector timeout_ms);
                     Called (WaitForLoadState (py "domcontentloaded")
                               timeout_ms);
                     Called Title; Called Url];
        stdout := stdout w |}).
Proof.
  intros Hs Ts H1 H2 H3 H4 H5. rewrite click_branch.
  unfold bind, lift, try_except, invoke, ret. rewrite Hs, Ts. simpl.
  rewrite H1. simpl. rewrite H2. simpl. rewrite H3. simpl. rewrite H4.
  simpl. rewrite H5. rewrite <- !app_assoc. reflexivity.
Qed.

(** X9.  When neither the CSS selector nor the text can be clicked, the
    Click command raises the exception of the text attempt (the one of the
    CSS attempt is dropped), after exactly those two calls. *)
Theorem click_reports_text_failure (cmd selector : pyval) (timeout_ms : Z)
    (w : world Session) (e1 e2 : exn) (s1 s2 : Session) :
  py_get cmd (py "selector") (PStr []) = Ok selector ->
  truthy selector = true ->
  perform (Click selector timeout_ms) (session w) = (Raise e1, s1) ->
  perform (ClickText selector timeout_ms) s1 = (Raise e2, s2) ->
  handle_command (PStr (py "Click")) cmd timeout_ms w
  = (Raise e2,
     {| session := s2;
        calls := calls w
                 ++ [Called (Click selector timeout_ms);
                     Called (ClickText selector timeout_ms)];
        stdout := stdout w |}).
Proof.
  intros Hs Ts H1 H2. rewrite click_branch.
  unfold bind, lift, try_except, invoke, ret. rewrite Hs, Ts. simpl.
  rewrite H1. simpl. rewrite H2. rewrite <- !app_assoc. reflexivity.
Qed.

Lemma silent_startup (a : args) : silent (startup a : M Session unit).
Proof.
  unfold startup.
  repeat (apply LoopFacts.silent_bind;
          [apply LoopFacts.silent_invoke|intros ?]).
  apply LoopFacts.silent_invoke.
Qed.

Lemma silent_cleanup : silent (cleanup : M Session unit).
Proof.
  unfold cleanup. apply LoopFacts.silent_try_except.
  - repeat (apply LoopFacts.silent_bind;
            [apply LoopFacts.silent_invoke|intros ?]).
    apply LoopFacts.silent_invoke.
  - intros e. apply LoopFacts.silent_ret.
Qed.

(** X10.  On a session that started, [main] ends normally whatever the
    input: standard output receives the ready line first, then exactly one
    line for each line with content up to and including the first Close
    command, and nothing from the teardown. *)
Theorem main_output (a : args) (stdin : list pystr) (w w1 : world Session) :
  startup a w = (Ok tt, w1) ->
  exists (unread : list pystr) (w' : world Session) (responses : list pyval),
    main a true stdin w = (Ok unread, w')
    /\ stdin = processed stdin ++ unread
    /\ stdout w' = stdout w ++ ready :: responses
    /\ List.length responses = content_lines (processed stdin).
Proof.
  intros Hstart.
  destruct (@MainFacts.main_ends_normally _ _ _ a stdin w w1 Hstart)
    as (unread & w2 & Hloop & Hmain).
  destruct (LoopFacts.read_loop_counts (timeout a * 1000) stdin
              (written w1 (success [(py "status", PStr (py "ready"))])))
    as (unread' & w2' & rs & Hloop' & Hsplit & Hout & Hlen & _).
  rewrite Hloop in Hloop'. injection Hloop' as <- <-.
  exists unread, (snd (cleanup w2)), rs. repeat split; try assumption.
  rewrite silent_cleanup, Hout. simpl.
  pose proof (silent_startup a w) as Hs. rewrite Hstart in Hs. simpl in Hs.
  rewrite Hs, <- app_assoc. reflexivity.
Qed.

(** X11.  When starting the session raises (the browser cannot be launched,
    say), [main] raises that exception at once: no ready line or any other
    line is written, no line of input is read, and the teardown does not
    run, so what had been started is not released. *)
Theorem startup_failure_propagates (a : args) (stdin : list pystr)
    (e : exn) (w w1 : world Session) :
  startup a w = (Raise e, w1) ->
  main a true stdin w = (Raise e, w1) /\ stdout w1 = stdout w.
Proof.
  intros Hstart. split.
  - unfold main. cbv beta zeta. change (negb true) with false. cbv iota.
    unfold bind at 1. now rewrite Hstart.
  - pose proof (silent_startup a w) as Hs. now rewrite Hstart in Hs.
Qed.

(** X12.  Lines can be fed in batches: when the first batch holds no Close
    command, running the loop on both batches together is running it on
    the first and then, from the world reached, on the second. *)
Theorem read_loop_app (timeout_ms : Z) (batch1 batch2 : list pystr) :
  forallb (fun raw => negb (closes raw)) batch1 = true ->
  forall w : world Session,
    read_loop timeout_ms (batch1 ++ batch2) w
    = read_loop timeout_ms batch2 (snd (read_loop timeout_ms batch1 w)).
Proof.
  induction batch1 as [|raw rest IH]; intros Hno w; [reflexivity|].
  simpl in Hno. apply andb_true_iff in Hno as [Hraw Hrest].
  apply negb_true_iff in Hraw.
  destruct (blank raw) eqn:Hb.
  - simpl app. rewrite !LoopFacts.read_loop_blank by exact Hb. now apply IH.
  - simpl app. rewrite !LoopFacts.read_loop_content by exact Hb.
    destruct (LoopFacts.process_line_one_response timeout_ms raw w)
      as (r & w1 & Hp & _).
    unfold bind. rewrite Hp.
    unfold closes in Hraw. rewrite Hb in Hraw. simpl in Hraw.
    rewrite Hraw. now apply IH.
Qed.

(** X13.  Blank lines change nothing: the loop ends in the same world
    (same session, same calls, same output) on the input with its blank
    lines taken out. *)
Theorem blank_lines_are_ignored (timeout_ms : Z) (stdin : list pystr) :
  forall w : world Session,
    snd (read_loop timeout_ms stdin w)
    = snd (read_loop timeout_ms
             (List.filter (fun raw => negb (blank raw)) stdin) w).
Proof.
  induction stdin as [|raw rest IH]; intros w; [reflexivity|].
  simpl List.filter. destruct (blank raw) eqn:Hb; simpl negb; cbv iota.
  - rewrite LoopFacts.read_loop_blank by exact Hb. apply IH.
  - rewrite !LoopFacts.read_loop_content by exact Hb.
    unfold bind.
    destruct (process_line timeout_ms (strip raw) w) as [[action|e] w1];
      [|reflexivity].
    destruct (eq_str action (py "Close")); [reflexivity|apply IH].
Qed.

(** X14.  The whitespace around a line does not matter (the carriage
    return of a CRLF line ending included): the loop ends in the same world
    on the stripped lines as on the lines as they came. *)
Theorem surrounding_whitespace_is_ignored (timeout_ms : Z)
    (stdin : list pystr) :
  forall w : world Session,
    snd (read_loop timeout_ms (List.map strip stdin) w)
    = snd (read_loop timeout_ms stdin w).
Proof.
  induction stdin as [|raw rest IH]; intros w; [reflexivity|].
  simpl. rewrite PyStrMore.strip_idempotent.
  destruct (strip raw) as [|c t]; [apply IH|].
  unfold bind.
  destruct (process_line timeout_ms (c :: t) w) as [[action|e] w1];
    [|reflexivity].
  destruct (eq_str action (py "Close")); [reflexivity|apply IH].
Qed.

End More.

End BridgeMore.

(* ================================================================== *)
(** * Further properties of the agent SDK *)

Module SdkMoreFacts.

Import Sdk SdkMore.

Section MoreRun.

Context {lib : PyLib}.

(** [run] with a handler, in terms of what the handler is called with. *)
Lemma run_with (self : Agent) (env : environment)
    (handler : pyval -> pyval -> result pyval) (o : output) :
  _handler self = Some handler ->
  run self env o
  = try_finally
      (try_except
         (bind (handler_input self env)
            (fun mc => bind (lift (handler (fst mc) (snd mc))) respond_result))
         on_error)
      (on_exit self) o.
Proof.
  intros Hh. unfold run. rewrite Hh. unfold try_finally, try_except.
  now rewrite (SdkFacts.before_handler self env
                 (fun message context =>
                    bind (lift (handler message context)) respond_result)).
Qed.

(** What the handler is called with, for a line of input that decodes. *)
Lemma handler_input_decoded (self : Agent) (env : environment)
    (data m c : pyval) (o : output) :
  setup_returns self ->
  strip (stdin_line env) <> [] ->
  json_loads (strip (stdin_line env)) = Ok data ->
  py_get data (py "message") (PStr []) = Ok m ->
  py_get data (py "context") (PDict []) = Ok c ->
  handler_input self env o = (Done (m, c), o).
Proof.
  intros Hs Hne Hj Hm Hc.
  unfold handler_input, read_input.
  destruct (strip (stdin_line env)) as [|x l] eqn:E; [congruence|].
  rewrite Hj.
  destruct Hs as [-> | ->]; unfold bind, lift, ret; now rewrite Hm, Hc.
Qed.

(** The run after the handler returned or raised. *)
Lemma run_from_input (self : Agent) (env : environment)
    (handler : pyval -> pyval -> result pyval) (m c : pyval) (o : output) :
  _handler self = Some handler ->
  handler_input self env o = (Done (m, c), o) ->
  run self env o
  = try_finally
      (try_except (bind (lift (handler m c)) respond_result) on_error)
      (on_exit self) o.
Proof.
  intros Hh Hi. rewrite (@run_with self env handler o Hh).
  unfold try_finally, try_except, bind at 1. now rewrite Hi.
Qed.

(** The run when something raised before the handler was called. *)
Lemma run_from_failure (self : Agent) (env : environment)
    (handler : pyval -> pyval -> result pyval) (e : exn) (o : output) :
  _handler self = Some handler ->
  handler_input self env o = (Raised e, o) ->
  run self env o = try_finally (on_error e) (on_exit self) o.
Proof.
  intros Hh Hi. rewrite (@run_with self env handler o Hh).
  unfold try_finally, try_except, bind at 1. now rewrite Hi.
Qed.

(** An [except] clause followed by the [finally] clause. *)
Lemma error_then_exit (self : Agent) (e : exn) (o : output) :
  fst (try_finally (on_error e) (on_exit self) o) = Exited 1%Z
  /\ stdout (snd (try_finally (on_error e) (on_exit self) o))
     = stdout o ++ [response (PStr (py "Error: " ++ exc_msg e))].
Proof.
  unfold try_finally.
  destruct (SdkFacts.on_error_exits e o) as (o1 & -> & Ho1).
  destruct (SdkFacts.on_exit_completes self o1) as (o2 & -> & Ho2).
  simpl. now rewrite Ho2, Ho1.
Qed.

(** The [finally] clause keeps the way the body ended and what it wrote
    on standard output. *)
Lemma finally_keeps (self : Agent) (m : M unit) (o : output)
    (r : outcome unit) (o1 : output) :
  m o = (r, o1) ->
  fst (try_finally m (on_exit self) o) = r
  /\ stdout (snd (try_finally m (on_exit self) o)) = stdout o1.
Proof.
  intros Hm. unfold try_finally. rewrite Hm.
  destruct (SdkFacts.on_exit_completes self o1) as (o2 & -> & Ho2).
  simpl. now split.
Qed.

(** The run when the handler returns a string. *)
Lemma run_returns_string (self : Agent) (env : environment)
    (handler : pyval -> pyval -> result pyval) (data m c : pyval)
    (s : pystr) (o : output) :
  _handler self = Some handler ->
  setup_returns self ->
  strip (stdin_line env) <> [] ->
  json_loads (strip (stdin_line env)) = Ok data ->
  py_get data (py "message") (PStr []) = Ok m ->
  py_get data (py "context") (PDict []) = Ok c ->
  handler m c = Ok (PStr s) ->
  fst (run self env o) = Done tt
  /\ stdout (snd (run self env o)) = stdout o ++ [response (PStr s)].
Proof.
  intros Hh Hs Hne Hj Hm Hc Hcall.
  erewrite run_from_input;
    [|eassumption|eapply handler_input_decoded; eassumption].
  unfold try_finally, try_except, bind, lift. rewrite Hcall.
  change (respond_result (PStr s) o)
    with (Done tt, {| stdout := stdout o ++ [response (PStr s)];
                      stderr := stderr o |}).
  cbv beta iota.
  destruct (SdkFacts.on_exit_completes self
              {| stdout := stdout o ++ [response (PStr s)];
                 stderr := stderr o |}) as (o2 & -> & Ho2).
  simpl. now rewrite Ho2.
Qed.


(** The run when the handler raises. *)
Lemma run_handler_raises (self : Agent) (env : environment)
    (handler : pyval -> pyval -> result pyval) (data m c : pyval)
    (e : exn) (o : output) :
  _handler self = Some handler ->
  setup_returns self ->
  strip (stdin_line env) <> [] ->
  json_loads (strip (stdin_line env)) = Ok data ->
  py_get data (py "message") (PStr []) = Ok m ->
  py_get data (py "context") (PDict []) = Ok c ->
  handler m c = Raise e ->
  fst (run self env o) = Exited 1%Z
  /\ stdout (snd (run self env o))
     = stdout o ++ [response (PStr (py "Error: " ++ exc_msg e))].
Proof.
  intros Hh Hs Hne Hj Hm Hc Hcall.
  erewrite run_from_input;
    [|eassumption|eapply handler_input_decoded; eassumption].
  unfold try_finally at 1, try_except, bind, lift. rewrite Hcall.
  apply error_then_exit.
Qed.

(** X17.  With nothing on standard input (end of file or a blank line),
    [run] does what it does on the line that is the JSON text of the object
    [{type: "message", agent_id: ..., message: ..., context: {}}] built
    from the variables OPENFANG_AGENT_ID and OPENFANG_MESSAGE, an unset
    variable counting as the empty string. *)
Theorem empty_input_falls_back_to_environment (self : Agent)
    (env env' : environment) (o : output) :
  strip (stdin_line env) = [] ->
  strip (stdin_line env') <> [] ->
  json_loads (strip (stdin_line env')) = Ok (fallback_input env) ->
  run self env o = run self env' o.
Proof.
  intros Hblank Hne Hj.
  assert (Hr : read_input env = read_input env').
  { unfold read_input. rewrite Hblank.
    destruct (strip (stdin_line env')) as [|x l] eqn:E; [congruence|].
    rewrite Hj. reflexivity. }
  unfold run. now rewrite Hr.
Qed.

(** X18.  A line of input that does not decode makes [run] exit with
    status 1 after one response that carries the message of the decoding
    error; the handler is not called (the result does not depend on it). *)
Theorem undecodable_input_exits (self : Agent) (env : environment)
    (handler : pyval -> pyval -> result pyval) (e : exn) (o : output) :
  _handler self = Some handler ->
  setup_returns self ->
  strip (stdin_line env) <> [] ->
  json_loads (strip (stdin_line env)) = Raise e ->
  fst (run self env o) = Exited 1%Z
  /\ stdout (snd (run self env o))
     = stdout o ++ [response (PStr (py "Error: " ++ exc_msg e))].
Proof.
  intros Hh Hs Hne Hj.
  erewrite run_from_failure; [apply error_then_exit|eassumption|].
  unfold handler_input, read_input.
  destruct (strip (stdin_line env)) as [|x l] eqn:E; [congruence|].
  rewrite Hj. destruct Hs as [-> | ->]; reflexivity.
Qed.

(** X19.  A line that decodes to a JSON value that is not an object (a
    list, a number, a string, null) makes [run] exit with status 1 after
    one response that reports the missing [get] attribute of that type. *)
Theorem non_object_input_exits (self : Agent) (env : environment)
    (handler : pyval -> pyval -> result pyval) (v : pyval) (o : output) :
  _handler self = Some handler ->
  setup_returns self ->
  strip (stdin_line env) <> [] ->
  json_loads (strip (stdin_line env)) = Ok v ->
  (forall d, v <> PDict d) ->
  fst (run self env o) = Exited 1%Z
  /\ stdout (snd (run self env o))
     = stdout o
       ++ [response (PStr (py "Error: '" ++ type_name v
                           ++ py "' object has no attribute 'get'"))].
Proof.
  intros Hh Hs Hne Hj Hv.
  erewrite run_from_failure with (e := attribute_error v (py "get"));
    [apply error_then_exit|eassumption|].
  unfold handler_input, read_input.
  destruct (strip (stdin_line env)) as [|x l] eqn:E; [congruence|].
  rewrite Hj.
  destruct v; try (destruct Hs as [-> | ->]; reflexivity).
  now elim (Hv d).
Qed.

(** X20.  When the setup function raises, [run] exits with status 1 after
    one response that carries the message of the exception; the input is
    not read and the handler is not called. *)
Theorem setup_failure_exits (self : Agent) (env : environment)
    (handler : pyval -> pyval -> result pyval) (e : exn) (o : output) :
  _handler self = Some handler ->
  _setup self = Some (Raise e) ->
  fst (run self env o) = Exited 1%Z
  /\ stdout (snd (run self env o))
     = stdout o ++ [response (PStr (py "Error: " ++ exc_msg e))].
Proof.
  intros Hh Hs.
  erewrite run_from_failure; [apply error_then_exit|eassumption|].
  unfold handler_input. now rewrite Hs.
Qed.

(** X21.  When the handler returns an object whose [text] cannot be
    encoded as JSON, nothing of that response is written: [run] writes one
    error response that names the type that cannot be encoded, and exits
    with status 1. *)
Theorem unencodable_text_exits (self : Agent) (env : environment)
    (handler : pyval -> pyval -> result pyval) (data m c text : pyval)
    (d : list (pystr * pyval)) (ob : pyobject) (o : output) :
  _handler self = Some handler ->
  setup_returns self ->
  strip (stdin_line env) <> [] ->
  json_loads (strip (stdin_line env)) = Ok data ->
  py_get data (py "message") (PStr []) = Ok m ->
  py_get data (py "context") (PDict []) = Ok c ->
  handler m c = Ok (PDict d) ->
  dict_lookup (py "text") d = Some text ->
  unserialisable text = Some ob ->
  fst (run self env o) = Exited 1%Z
  /\ stdout (snd (run self env o))
     = stdout o
       ++ [response (PStr (py "Error: Object of type " ++ obj_type ob
                           ++ py " is not JSON serializable"))].
Proof.
  intros Hh Hs Hne Hj Hm Hc Hcall Ht Hob.
  erewrite run_from_input;
    [|eassumption|eapply handler_input_decoded; eassumption].
  assert (Hr : respond_result (PDict d) o
               = (Raised {| exc_type := py "TypeError";
                            exc_msg := py "Object of type " ++ obj_type ob
                                       ++ py " is not JSON serializable" |},
                  o)).
  { unfold respond_result, bind, lift, py_get. rewrite Ht.
    destruct (dict_lookup (py "metadata") d) as [md|];
      unfold respond, bind, lift, json_dumps.
    - destruct (truthy md).
      + change (dict_set (py "metadata") md
                  [(py "type", PStr (py "response")); (py "text", text)])
          with [(py "type", PStr (py "response")); (py "text", text);
                (py "metadata", md)].
        cbn [unserialisable]. rewrite Hob. reflexivity.
      + cbn [unserialisable]. rewrite Hob. reflexivity.
    - cbn [truthy unserialisable]. rewrite Hob. reflexivity. }
  destruct (SdkFacts.on_error_exits
              {| exc_type := py "TypeError";
                 exc_msg := py "Object of type " ++ obj_type ob
                            ++ py " is not JSON serializable" |} o)
    as (o1 & He & Ho1).
  assert (Hbody : try_except (bind (lift (handler m c)) respond_result)
                    on_error o = (Exited 1%Z, o1))
    by (unfold try_except, bind, lift; now rewrite Hcall, Hr).
  destruct (finally_keeps self _ o Hbody) as [-> ->].
  split; [reflexivity|exact Ho1].
Qed.

(** X22.  When the handler returns an object with a [text] and a
    [metadata] that both encode, [run] writes one response with that text,
    and with the metadata exactly when it is truthy: metadata that is
    absent, null or empty is left out of the response. *)
Theorem metadata_is_kept_when_truthy (self : Agent) (env : environment)
    (handler : pyval -> pyval -> result pyval) (data m c text metadata : pyval)
    (d : list (pystr * pyval)) (o : output) :
  _handler self = Some handler ->
  setup_returns self ->
  strip (stdin_line env) <> [] ->
  json_loads (strip (stdin_line env)) = Ok data ->
  py_get data (py "message") (PStr []) = Ok m ->
  py_get data (py "context") (PDict []) = Ok c ->
  handler m c = Ok (PDict d) ->
  dict_lookup (py "text") d = Some text ->
  py_get (PDict d) (py "metadata") PNone = Ok metadata ->
  unserialisable text = None ->
  unserialisable metadata = None ->
  fst (run self env o) = Done tt
  /\ stdout (snd (run self env o))
     = stdout o
       ++ [PDict ([(py "type", PStr (py "response")); (py "text", text)]
                  ++ if truthy metadata then [(py "metadata", metadata)]
                     else [])].
Proof.
  intros Hh Hs Hne Hj Hm Hc Hcall Ht Hmd Utext Umd.
  erewrite run_from_input;
    [|eassumption|eapply handler_input_decoded; eassumption].
  assert (Hr : respond_result (PDict d) o
               = (Done tt,
                  {| stdout := stdout o
                       ++ [PDict ([(py "type", PStr (py "response"));
                                   (py "text", text)]
                                  ++ if truthy metadata
                                     then [(py "metadata", metadata)]
                                     else [])];
                     stderr := stderr o |})).
  { unfold respond_result. unfold bind at 1, lift at 1.
    unfold py_get at 1. rewrite Ht.
    unfold bind at 1, lift at 1. rewrite Hmd.
    unfold respond, bind, lift, json_dumps.
    destruct (truthy metadata).
    - change (dict_set (py "metadata") metadata
                [(py "type", PStr (py "response")); (py "text", text)])
        with [(py "type", PStr (py "response")); (py "text", text);
              (py "metadata", metadata)].
      cbn [unserialisable]. rewrite Utext, Umd. reflexivity.
    - cbn [unserialisable]. rewrite Utext. reflexivity. }
  match type of Hr with
  | _ = (_, ?o1) =>
      assert (Hbody : try_except (bind (lift (handler m c)) respond_result)
                        on_error o = (Done tt, o1))
        by (unfold try_except, bind, lift; now rewrite Hcall, Hr);
      destruct (finally_keeps self _ o Hbody) as [-> ->]
  end.
  split; reflexivity.
Qed.

(** X23.  The echo agent, end to end: on a line that decodes to an object
    whose context is an object (or is absent), it writes one response,
    [Hello from Python agent ID! You said: MESSAGE], and returns; ID is the
    [agent_id] of the context, else the variable OPENFANG_AGENT_ID, else
    [unknown], and MESSAGE is the message of the object (empty when it has
    none). *)
Theorem echo_agent_greets (env : environment) (data m : pyval)
    (c : list (pystr * pyval)) (o : output) :
  strip (stdin_line env) <> [] ->
  json_loads (strip (stdin_line env)) = Ok data ->
  py_get data (py "message") (PStr []) = Ok m ->
  py_get data (py "context") (PDict []) = Ok (PDict c) ->
  let agent_id :=
    match dict_lookup (py "agent_id") c with
    | Some v => v
    | None => PStr (getenv env (py "OPENFANG_AGENT_ID") (py "unknown"))
    end in
  fst (echo_agent env o) = Done tt
  /\ stdout (snd (echo_agent env o))
     = stdout o
       ++ [response (PStr (py "Hello from Python agent " ++ py_str agent_id
                           ++ py "! You said: " ++ py_str m))].
Proof.
  intros Hne Hj Hm Hc agent_id. unfold echo_agent. cbv zeta.
  change (let (agent, _) := on_message __init__ (handle env) in run agent env)
    with (run {| _handler := Some (handle env); _setup := None;
                 _teardown := None |} env).
  eapply run_returns_string; try eassumption; try reflexivity.
  - now left.
  - unfold handle, py_get. subst agent_id.
    destruct (dict_lookup (py "agent_id") c); reflexivity.
Qed.

(** X24.  The echo agent on an input whose context is not an object (null,
    a string, a list): the handler raises on [context.get], so the agent
    writes one error response that names the type of the context and exits
    with status 1. *)
Theorem echo_agent_rejects_context (env : environment) (data m c : pyval)
    (o : output) :
  strip (stdin_line env) <> [] ->
  json_loads (strip (stdin_line env)) = Ok data ->
  py_get data (py "message") (PStr []) = Ok m ->
  py_get data (py "context") (PDict []) = Ok c ->
  (forall d, c <> PDict d) ->
  fst (echo_agent env o) = Exited 1%Z
  /\ stdout (snd (echo_agent env o))
     = stdout o
       ++ [response (PStr (py "Error: '" ++ type_name c
                           ++ py "' object has no attribute 'get'"))].
Proof.
  intros Hne Hj Hm Hc Hnot. unfold echo_agent. cbv zeta.
  change (let (agent, _) := on_message __init__ (handle env) in run agent env)
    with (run {| _handler := Some (handle env); _setup := None;
                 _teardown := None |} env).
  eapply run_handler_raises with (e := attribute_error c (py "get"));
    try eassumption; try reflexivity.
  - now left.
  - unfold handle. destruct c; try reflexivity. now elim (Hnot d).
Qed.

End MoreRun.

End SdkMoreFacts.

(* ================================================================== *)
(** ** The teardown function, with callables that write and exit *)

Module SdkEffectsFacts.

Import Sdk.

Section Teardown.

Context {lib : PyLib}.

(** On functions that only return or raise, the two texts of [run] are the
    same computation. *)
Lemma run_of_pure (self : Sdk.Agent) (env : environment) (o : output) :
  SdkEffects.run (SdkEffects.of_pure self) env o = Sdk.run self env o.
Proof.
  unfold SdkEffects.run, Sdk.run, SdkEffects.on_exit, Sdk.on_exit.
  destruct self as [[handler|] [setup|] [teardown|]]; reflexivity.
Qed.

(** The [try] statement of [run] without its [finally] clause never ends
    with an exception: [except Exception] turns it into an exit. *)
Lemma guarded_never_raises (body : M unit) (o : output) (e : exn) :
  fst (try_except body on_error o) <> Raised e.
Proof.
  unfold try_except.
  destruct (body o) as [[[]|e'|n] o1]; cbn [fst]; discriminate.
Qed.

(** X16.  What the teardown function can change of a run, when it is any
    Python callable (one that may write and call [sys.exit]).  Without a
    handler it is not called.  With a handler it is called once, after the
    [try] and [except] clauses are done, on what they left written, also
    when the handler raised; the run without it never ends with an
    exception, and
    - if it returns, [run] ends as without it;
    - if it raises, [run] still ends as without it, with one more line on
      standard error;
    - if it calls [sys.exit(n)], the process exits with status [n]
      whatever happened before: a teardown function that exits with 0
      hides the status 1 of a failed run.
    What it writes comes after what the run wrote. *)
Theorem teardown_changes_result_only_by_exiting (self : SdkEffects.Agent)
    (env : environment) (o : output) :
  let body := SdkEffects.run (SdkEffects.without_teardown self) env o in
  (SdkEffects._handler self = None -> SdkEffects.run self env o = body)
  /\ (forall e, fst body <> Raised e)
  /\ (forall teardown,
        SdkEffects._handler self <> None ->
        SdkEffects._teardown self = Some teardown ->
        SdkEffects.run self env o
        = match teardown (snd body) with
          | (Done _, o') => (fst body, o')
          | (Raised e, o') =>
              (fst body,
               {| stdout := stdout o';
                  stderr := stderr o'
                            ++ [py "[ERROR] Teardown error: " ++ exc_msg e] |})
          | (Exited n, o') => (Exited n, o')
          end).
Proof.
  cbv zeta. unfold SdkEffects.run.
  cbn [SdkEffects.without_teardown SdkEffects._handler SdkEffects._setup].
  destruct (SdkEffects._handler self) as [handler|].
  - split; [discriminate|].
    match goal with
    | |- context [try_except ?b on_error] => set (body := b)
    end.
    assert (Hbare : forall m : M unit,
               try_finally m
                 (SdkEffects.on_exit (SdkEffects.without_teardown self)) o
               = m o).
    { intros m. unfold try_finally, SdkEffects.on_exit.
      cbn [SdkEffects.without_teardown SdkEffects._teardown].
      unfold ret. now destruct (m o). }
    rewrite Hbare. split; [exact (guarded_never_raises body o)|].
    intros teardown _ Htd.
    unfold try_finally, SdkEffects.on_exit. rewrite Htd.
    destruct (try_except body on_error o) as [r o1]. cbn [fst snd].
    unfold try_except.
    destruct (teardown o1) as [[[]|e|n] o2]; reflexivity.
  - split; [reflexivity|]. split; [discriminate|].
    intros teardown Hh. now contradiction Hh.
Qed.

End Teardown.

End SdkEffectsFacts.

(* ================================================================== *)
(** * Properties of the REST client *)

Module ClientFacts.

Import Client PyStrFacts.

Lemma split_on_nonempty (sep : codepoint) (s : pystr) : split_on sep s <> [].
Proof.
  destruct s as [|c s]; simpl; [discriminate|].
  destruct (N.eqb c sep); [discriminate|].
  destruct (split_on sep s); discriminate.
Qed.

Lemma removelast_cons {A} (x : A) (l : list A) :
  l <> [] -> removelast (x :: l) = x :: removelast l.
Proof. destruct l; [congruence|reflexivity]. Qed.

Lemma last_cons {A} (x : A) (l : list A) (d : A) :
  l <> [] -> last (x :: l) d = last l d.
Proof. destruct l; [congruence|reflexivity]. Qed.

Lemma last_app_nonempty {A} (l1 l2 : list A) (d : A) :
  l2 <> [] -> last (l1 ++ l2) d = last l2 d.
Proof.
  intros H. induction l1 as [|x l1 IH]; [reflexivity|].
  simpl app. rewrite last_cons; [exact IH|].
  destruct l1; [exact H|discriminate].
Qed.

(** Splitting a concatenation: the complete pieces of the first part, then
    the pieces of its unfinished piece followed by the second part. *)
Lemma split_on_app (sep : codepoint) (a b : pystr) :
  split_on sep (a ++ b)
  = removelast (split_on sep a)
    ++ split_on sep (last (split_on sep a) [] ++ b).
Proof.
  induction a as [|c a IH]; [reflexivity|].
  simpl app. simpl split_on.
  destruct (N.eqb c sep) eqn:Ec.
  - rewrite removelast_cons, last_cons by apply split_on_nonempty.
    simpl. now rewrite IH.
  - rewrite IH.
    destruct (split_on sep a) as [|x [|y r]] eqn:Ea.
    + now elim (split_on_nonempty sep a).
    + simpl. now rewrite Ec.
    + change (removelast (x :: y :: r)) with (x :: removelast (y :: r)).
      change (last (x :: y :: r) []) with (last (y :: r) []).
      change (removelast ((c :: x) :: y :: r))
        with ((c :: x) :: removelast (y :: r)).
      change (last ((c :: x) :: y :: r) []) with (last (y :: r) []).
      reflexivity.
Qed.

Lemma split_on_one_line (s : pystr) : one_line s -> split_on 10%N s = [s].
Proof.
  unfold one_line. induction s as [|c s IH]; intros Hs; [reflexivity|].
  simpl. destruct (N.eqb c 10%N) eqn:Ec.
  - apply N.eqb_eq in Ec. subst c. elim Hs. now left.
  - rewrite IH; [reflexivity|]. intros H. apply Hs. now right.
Qed.

Lemma split_on_line (l t : pystr) :
  one_line l -> split_on 10%N (l ++ 10%N :: t) = l :: split_on 10%N t.
Proof.
  unfold one_line. induction l as [|c l IH]; intros Hl; [reflexivity|].
  simpl. destruct (N.eqb c 10%N) eqn:Ec.
  - apply N.eqb_eq in Ec. subst c. elim Hl. now left.
  - rewrite IH; [reflexivity|]. intros H. apply Hl. now right.
Qed.

(** Splitting the text of some lines followed by more text: the lines, then
    the pieces of the rest. *)
Lemma split_on_unlines (ls : list pystr) (t : pystr) :
  Forall one_line ls ->
  split_on 10%N (unlines ls ++ t) = ls ++ split_on 10%N t.
Proof.
  induction 1 as [|l ls Hl Hls IH]; [reflexivity|].
  change (unlines (l :: ls)) with ((l ++ [10%N]) ++ unlines ls).
  rewrite <- !app_assoc. simpl app at 2.
  rewrite (split_on_line _ Hl). simpl. now rewrite IH.
Qed.

Lemma split_on_unlines_only (ls : list pystr) :
  Forall one_line ls -> split_on 10%N (unlines ls) = ls ++ [[]].
Proof.
  intros Hls. rewrite <- (app_nil_r (unlines ls)).
  now rewrite (split_on_unlines [] Hls).
Qed.

Section Stream.

Context {lib : PyLib}.

Lemma for_lines_cons (line : pystr) (rest : list pystr) :
  for_lines (line :: rest)
  = if is_data line then
      if is_done line then ([], Some Sentinel)
      else
        match json_loads (skipn 6 (strip line)) with
        | Ok v => let (evs, e) := for_lines rest in (v :: evs, e)
        | Raise err =>
            if PyStr.eqb (exc_type err) (py "JSONDecodeError") then
              let (evs, e) := for_lines rest in
              (PDict [(py "raw", PStr (skipn 6 (strip line)))] :: evs, e)
            else ([], Some (StreamError err))
        end
    else for_lines rest.
Proof.
  unfold is_done, is_data. cbn [for_lines].
  destruct (startswith (strip line) (py "data: ")); reflexivity.
Qed.

(** The loop over the lines of two successive batches. *)
Lemma for_lines_app (l1 l2 : list pystr) :
  for_lines (l1 ++ l2)
  = match for_lines l1 with
    | (evs, Some e) => (evs, Some e)
    | (evs, None) =>
        let (evs2, e2) := for_lines l2 in (evs ++ evs2, e2)
    end.
Proof.
  induction l1 as [|line l1 IH].
  - simpl. now destruct (for_lines l2).
  - change ((line :: l1) ++ l2) with (line :: (l1 ++ l2)).
    rewrite !for_lines_cons.
    destruct (is_data line); [|exact IH].
    destruct (is_done line); [reflexivity|].
    destruct (json_loads (skipn 6 (strip line))) as [v|err].
    + rewrite IH. destruct (for_lines l1) as [evs [e|]]; [reflexivity|].
      now destruct (for_lines l2).
    + destruct (PyStr.eqb (exc_type err) (py "JSONDecodeError"));
        [|reflexivity].
      rewrite IH. destruct (for_lines l1) as [evs [e|]]; [reflexivity|].
      now destruct (for_lines l2).
Qed.

(** One turn of the [while] loop on a chunk that is not empty and
    decodes. *)
Lemma read_chunks_step (buffer : pystr) (chunk : bytes) (text : pystr)
    (rest : list bytes) :
  chunk <> [] ->
  utf8_decode chunk = Ok text ->
  read_chunks buffer (chunk :: rest)
  = match for_lines (removelast (split_on 10%N (buffer ++ text))) with
    | (evs, Some e) => {| events := evs; ending := e; closed := false |}
    | (evs, None) =>
        yielded evs
          (read_chunks (last (split_on 10%N (buffer ++ text)) [])
             rest)
    end.
Proof.
  intros Hne Hd. destruct chunk as [|c chunk]; [congruence|].
  cbn [read_chunks]. now rewrite Hd.
Qed.

(** One turn of the [while] loop on a chunk that does not decode. *)
Lemma read_chunks_undecodable (buffer : pystr) (chunk : bytes) (e : exn)
    (rest : list bytes) :
  chunk <> [] ->
  utf8_decode chunk = Raise e ->
  read_chunks buffer (chunk :: rest)
  = {| events := []; ending := StreamError e; closed := false |}.
Proof.
  intros Hne Hd. destruct chunk as [|c chunk]; [congruence|].
  cbn [read_chunks]. now rewrite Hd.
Qed.

(** On chunks that decode, the loop is the loop over their texts. *)
Lemma read_chunks_decoded (chunks : list bytes) (texts : list pystr) :
  decoded chunks texts ->
  forall buffer,
    read_chunks buffer chunks = read_decoded buffer texts.
Proof.
  intros [Hne Hdec]. induction Hdec as [|c t chunks texts Hc Hrest IH];
    intros buffer; [reflexivity|].
  inversion Hne as [|? ? Hc0 Hne']; subst.
  rewrite (read_chunks_step buffer chunks Hc0 Hc). cbn [read_decoded].
  destruct (for_lines _) as [evs [e|]]; [reflexivity|].
  now rewrite (IH Hne').
Qed.

Lemma yielded_yielded (evs1 evs2 : list pyval) (r : stream_run) :
  yielded evs1 (yielded evs2 r) = yielded (evs1 ++ evs2) r.
Proof. unfold yielded. simpl. now rewrite app_assoc. Qed.

(** Two texts read one after the other are read as their concatenation. *)
Lemma read_decoded_merge (buffer t1 t2 : pystr) (rest : list pystr) :
  read_decoded buffer (t1 :: t2 :: rest)
  = read_decoded buffer ((t1 ++ t2) :: rest).
Proof.
  cbn [read_decoded].
  rewrite (app_assoc buffer t1 t2).
  rewrite (split_on_app 10%N (buffer ++ t1) t2).
  set (L1 := split_on 10%N (buffer ++ t1)).
  set (L2 := split_on 10%N (last L1 [] ++ t2)).
  assert (HL2 : L2 <> []) by apply split_on_nonempty.
  rewrite (removelast_app (removelast L1) HL2).
  rewrite (last_app_nonempty (removelast L1) [] HL2).
  rewrite for_lines_app.
  destruct (for_lines (removelast L1)) as [evs1 [e1|]]; [reflexivity|].
  destruct (for_lines (removelast L2)) as [evs2 [e2|]].
  - unfold yielded. simpl. reflexivity.
  - apply yielded_yielded.
Qed.

Lemma read_decoded_concat (texts : list pystr) :
  forall buffer t,
    read_decoded buffer (t :: texts)
    = read_decoded buffer [t ++ List.concat texts].
Proof.
  induction texts as [|t2 texts IH]; intros buffer t.
  - simpl List.concat. now rewrite app_nil_r.
  - rewrite read_decoded_merge, IH. simpl List.concat.
    now rewrite app_assoc.
Qed.

(** The run on texts is the run over the complete lines of their
    concatenation. *)
Lemma read_decoded_lines (texts : list pystr) :
  read_decoded [] texts
  = run_of_lines (removelast (split_on 10%N (List.concat texts))).
Proof.
  destruct texts as [|t texts]; [reflexivity|].
  rewrite read_decoded_concat. simpl List.concat.
  cbn [read_decoded]. unfold run_of_lines. simpl app.
  destruct (for_lines _) as [evs [e|]]; [reflexivity|].
  unfold yielded. simpl. now rewrite app_nil_r.
Qed.

(** The run on chunks that decode. *)
Lemma read_chunks_lines (chunks : list bytes) (texts : list pystr) :
  decoded chunks texts ->
  read_chunks [] chunks
  = run_of_lines (removelast (split_on 10%N (List.concat texts))).
Proof.
  intros Hd. rewrite (read_chunks_decoded Hd). apply read_decoded_lines.
Qed.

(** A chunk that does not decode, after chunks that do. *)
Lemma read_chunks_then_undecodable (pre : list bytes) (texts : list pystr)
    (bad : bytes) (rest : list bytes) (e : exn) :
  decoded pre texts ->
  bad <> [] ->
  utf8_decode bad = Raise e ->
  forall buffer,
    read_chunks buffer (pre ++ bad :: rest)
    = let r := read_chunks buffer pre in
      if closed r
      then {| events := events r; ending := StreamError e; closed := false |}
      else r.
Proof.
  intros [Hne Hdec] Hbad He.
  induction Hdec as [|c t pre texts Hc Hrest IH]; intros buffer.
  - simpl app. now rewrite (read_chunks_undecodable buffer rest Hbad He).
  - inversion Hne as [|? ? Hc0 Hne']; subst.
    change ((c :: pre) ++ bad :: rest) with (c :: (pre ++ bad :: rest)).
    rewrite !(read_chunks_step buffer _ Hc0 Hc). cbv zeta.
    destruct (for_lines _) as [evs [e'|]]; [reflexivity|].
    rewrite (IH Hne'). cbv zeta.
    set (r := read_chunks _ pre).
    unfold yielded. cbn [closed events ending].
    destruct (closed r) eqn:Hr; cbn [closed events ending];
      [reflexivity|now rewrite Hr].
Qed.

(** An ASCII text decodes to itself. *)
Lemma utf8_from_ascii (b : bytes) :
  forallb (fun c => (c <? 128)%N) b = true ->
  forall pos, utf8_from pos b = Ok b.
Proof.
  induction b as [|c b IH]; intros Hascii pos; [reflexivity|].
  simpl in Hascii. apply andb_true_iff in Hascii as [Hc Hb].
  cbn [utf8_from]. rewrite Hc, (IH Hb). reflexivity.
Qed.

(** Bytes that end on the first byte of a character of several bytes do
    not decode. *)
Lemma utf8_from_cut (prefix : bytes) (b : N) :
  forallb (fun c => (c <? 128)%N) prefix = true ->
  ((194 <=? b) && (b <? 245))%N = true ->
  forall pos,
    utf8_from pos (prefix ++ [b])
    = Raise (unicode_decode_error (pos + N.of_nat (List.length prefix)) 1 b
               unexpected_end).
Proof.
  intros Hascii Hb. apply andb_true_iff in Hb as [Hlo Hhi].
  apply N.leb_le in Hlo. apply N.ltb_lt in Hhi.
  induction prefix as [|c prefix IH]; intros pos.
  - cbn [app utf8_from List.length N.of_nat]. rewrite N.add_0_r.
    replace (b <? 128)%N with false by (symmetry; apply N.ltb_ge; lia).
    replace (b <? 194)%N with false by (symmetry; apply N.ltb_ge; lia).
    destruct (b <? 224)%N; [reflexivity|].
    destruct (b <? 240)%N; [reflexivity|].
    replace (b <? 245)%N with true by (symmetry; apply N.ltb_lt; lia).
    reflexivity.
  - simpl in Hascii. apply andb_true_iff in Hascii as [Hc Hrest].
    change ((c :: prefix) ++ [b]) with (c :: (prefix ++ [b])).
    cbn [utf8_from]. rewrite Hc, (IH Hrest). cbn [decoded_char].
    do 2 f_equal. cbn [List.length]. lia.
Qed.

(** X25.  The events of a stream depend on how the network cut it into
    chunks only through the decoding of each chunk.  When every chunk
    decodes on its own (no character is cut by the end of a read), two
    sequences of chunks whose texts have the same concatenation give the
    same run of the generator: same events, same ending, same closing of
    the response.  When a chunk does not decode, the run is the one of the
    chunks before it with, in place of the end of the stream, the exception
    of the decoder: the events of the lines completed before are yielded,
    nothing after is read and the response is not closed.  This is what
    happens when a read ends on the first byte of a character of several
    bytes: after ASCII bytes, such a chunk makes the generator raise
    [UnicodeDecodeError] (unexpected end of data), whatever the next chunk
    holds. *)
Theorem stream_is_independent_of_chunking :
  (forall (chunks1 chunks2 : list bytes) (texts1 texts2 : list pystr),
     decoded chunks1 texts1 ->
     decoded chunks2 texts2 ->
     List.concat texts1 = List.concat texts2 ->
     read_chunks [] chunks1 = read_chunks [] chunks2)
  /\ (forall (pre : list bytes) (texts : list pystr) (bad : bytes)
             (rest : list bytes) (e : exn),
        decoded pre texts ->
        bad <> [] ->
        utf8_decode bad = Raise e ->
        read_chunks [] (pre ++ bad :: rest)
        = let r := read_chunks [] pre in
          if closed r
          then {| events := events r; ending := StreamError e;
                  closed := false |}
          else r)
  /\ (forall (pre : list bytes) (texts : list pystr) (prefix : bytes)
             (b : N) (rest : list bytes),
        decoded pre texts ->
        forallb (fun c => (c <? 128)%N) prefix = true ->
        ((194 <=? b) && (b <? 245))%N = true ->
        read_chunks [] (pre ++ (prefix ++ [b]) :: rest)
        = let r := read_chunks [] pre in
          if closed r
          then {| events := events r;
                  ending :=
                    StreamError
                      (unicode_decode_error (N.of_nat (List.length prefix)) 1 b
                         unexpected_end);
                  closed := false |}
          else r).
Proof.
  split; [|split].
  - intros chunks1 chunks2 texts1 texts2 H1 H2 Hc.
    rewrite (read_chunks_lines H1), (read_chunks_lines H2). now rewrite Hc.
  - intros pre texts bad rest e Hd Hbad He.
    now apply (read_chunks_then_undecodable rest Hd Hbad He).
  - intros pre texts prefix b rest Hd Hascii Hb.
    apply (read_chunks_then_undecodable rest Hd).
    + now destruct prefix.
    + unfold utf8_decode. now rewrite (@utf8_from_cut prefix b Hascii Hb).
Qed.

(** X26.  A last line that is not ended by a newline is lost.  On chunks
    that each decode, when the text of the stream is some complete lines
    followed by a line without its newline, the run is the run over the
    complete lines alone, the one of any stream whose text is these lines
    and nothing more: at the end of the stream what is left in the buffer
    is dropped without being looked at, so an event the server did not end
    with a newline is never yielded. *)
Theorem unterminated_line_is_dropped (chunks : list bytes)
    (texts ls : list pystr) (tail : pystr) :
  decoded chunks texts ->
  Forall one_line ls ->
  one_line tail ->
  List.concat texts = unlines ls ++ tail ->
  read_chunks [] chunks = run_of_lines ls
  /\ (forall (chunks' : list bytes) (texts' : list pystr),
        decoded chunks' texts' ->
        List.concat texts' = unlines ls ->
        read_chunks [] chunks' = read_chunks [] chunks).
Proof.
  intros Hd Hls Htail Hc.
  assert (Hrun : read_chunks [] chunks = run_of_lines ls).
  { rewrite (read_chunks_lines Hd), Hc.
    rewrite (split_on_unlines tail Hls), (split_on_one_line Htail).
    now rewrite removelast_last. }
  split; [exact Hrun|].
  intros chunks' texts' Hd' Hc'.
  rewrite Hrun, (read_chunks_lines Hd'), Hc'.
  now rewrite (split_on_unlines_only Hls), removelast_last.
Qed.

(** The loop ends on a sentinel line, whatever follows it. *)
Lemma for_lines_done (ls more : list pystr) (s : pystr) :
  is_done s = true ->
  for_lines (ls ++ s :: more) = for_lines (ls ++ [s])
  /\ snd (for_lines (ls ++ [s])) <> None.
Proof.
  intros Hs.
  assert (Hd : is_data s = true)
    by (unfold is_done in Hs; now apply andb_true_iff in Hs).
  rewrite !for_lines_app, !for_lines_cons, Hd, Hs.
  destruct (for_lines ls) as [evs [e|]]; simpl; split; congruence.
Qed.

(** X27.  The sentinel ends the stream.  On chunks that each decode, once
    a line [data: [DONE]] has come, the run is the run over the lines up to
    and including it: nothing that follows is looked at, no event is
    yielded for it whatever it is, and the generator returns without
    closing the response. *)
Theorem sentinel_ends_stream (chunks : list bytes) (texts ls : list pystr)
    (s post : pystr) :
  decoded chunks texts ->
  Forall one_line ls ->
  one_line s ->
  is_done s = true ->
  List.concat texts = unlines (ls ++ [s]) ++ post ->
  read_chunks [] chunks = run_of_lines (ls ++ [s])
  /\ closed (read_chunks [] chunks) = false.
Proof.
  intros Hd Hls Hs Hdone Hc.
  assert (Hall : Forall one_line (ls ++ [s]))
    by (apply Forall_app; split; [exact Hls|now constructor]).
  rewrite (read_chunks_lines Hd), Hc.
  rewrite (split_on_unlines post Hall).
  rewrite (removelast_app (ls ++ [s]) (@split_on_nonempty 10%N post)).
  rewrite <- app_assoc. simpl app. unfold run_of_lines.
  destruct (@for_lines_done ls (removelast (split_on 10%N post)) s Hdone)
    as [-> Hend].
  destruct (for_lines (ls ++ [s])) as [evs [e|]]; simpl in *.
  - split; reflexivity.
  - congruence.
Qed.

Lemma for_lines_events (ls : list pystr) :
  (forall text e, json_loads text = Raise e ->
                  exc_type e = py "JSONDecodeError") ->
  forallb (fun l => negb (is_done l)) ls = true ->
  for_lines ls = (List.map event_of (List.filter is_data ls), None).
Proof.
  intros Hdec. induction ls as [|line ls IH]; intros Hno; [reflexivity|].
  simpl in Hno. apply andb_true_iff in Hno as [Hline Hrest].
  apply negb_true_iff in Hline.
  rewrite for_lines_cons. simpl List.filter.
  destruct (is_data line); [|now apply IH].
  rewrite Hline, (IH Hrest). simpl List.map. unfold event_of.
  destruct (json_loads (skipn 6 (strip line))) as [v|err] eqn:Ej;
    [reflexivity|].
  rewrite (Hdec _ _ Ej). reflexivity.
Qed.

(** X28.  On chunks that each decode, for a stream of complete lines
    without sentinel and a JSON decoder that only fails by
    [JSONDecodeError], the generator yields exactly one event for each line
    that carries data, in order: what the payload decodes to, or
    [{"raw": payload}] when it is not JSON; the other lines (comments,
    event names, blank lines) yield nothing; the stream is read to its end
    and the response is closed. *)
Theorem one_event_per_data_line (chunks : list bytes)
    (texts ls : list pystr) :
  (forall text e, json_loads text = Raise e ->
                  exc_type e = py "JSONDecodeError") ->
  decoded chunks texts ->
  Forall one_line ls ->
  forallb (fun l => negb (is_done l)) ls = true ->
  List.concat texts = unlines ls ->
  read_chunks [] chunks
  = {| events := List.map event_of (List.filter is_data ls);
       ending := EndOfStream; closed := true |}.
Proof.
  intros Hdec Hd Hls Hno Hc.
  rewrite (read_chunks_lines Hd), Hc.
  rewrite (split_on_unlines_only Hls), removelast_last.
  unfold run_of_lines. now rewrite (@for_lines_events ls Hdec Hno).
Qed.

End Stream.

Lemma lstrip_chars_repeat (chars : pystr) (c : codepoint) (n : nat)
    (s : pystr) :
  member c chars = true ->
  lstrip_chars chars (repeat c n ++ s) = lstrip_chars chars s.
Proof.
  intros Hc. induction n as [|n IH]; [reflexivity|].
  simpl. now rewrite Hc.
Qed.

Lemma rev_repeat_same {A} (a : A) (n : nat) : rev (repeat a n) = repeat a n.
Proof.
  induction n as [|n IH]; [reflexivity|].
  simpl. rewrite IH. symmetry. apply repeat_cons.
Qed.

Lemma lstrip_chars_head (chars s : pystr) (c : codepoint) (t : pystr) :
  lstrip_chars chars s = c :: t -> member c chars = false.
Proof.
  induction s as [|x s IH]; simpl; [discriminate|].
  destruct (member x chars) eqn:Hx; [exact IH|].
  now intros [= <- <-].
Qed.

(** X29.  Slashes at the end of the base URL do not matter: a client made
    from a base URL with any number of slashes added at its end is the
    same client, and the base URL a client keeps never ends with a slash,
    so joining it with a path that starts with a slash gives exactly one
    slash between them. *)
Theorem trailing_slashes_are_dropped (base : pystr) (n : nat)
    (headers : option (list (pystr * pyval))) :
  __init__ (base ++ repeat 47%N n) headers = __init__ base headers
  /\ forall s, base_url (__init__ base headers) <> s ++ [47%N].
Proof.
  split.
  - unfold __init__, rstrip_chars. f_equal.
    rewrite rev_app_distr, rev_repeat_same.
    now rewrite lstrip_chars_repeat by reflexivity.
  - intros s H. simpl in H. unfold rstrip_chars in H.
    apply (f_equal (@rev codepoint)) in H.
    rewrite rev_involutive, rev_app_distr in H. simpl in H.
    apply lstrip_chars_head in H. discriminate.
Qed.

Lemma dict_lookup_set_same (k : pystr) (v : pyval)
    (d : list (pystr * pyval)) :
  dict_lookup k (dict_set k v d) = Some v.
Proof.
  induction d as [|[k' v'] d IH]; simpl.
  - now rewrite eqb_refl.
  - destruct (PyStr.eqb k' k) eqn:E; simpl.
    + now rewrite eqb_refl.
    + now rewrite E.
Qed.

Lemma dict_lookup_set_other (k k' : pystr) (v : pyval)
    (d : list (pystr * pyval)) :
  k <> k' -> dict_lookup k' (dict_set k v d) = dict_lookup k' d.
Proof.
  intros Hk. induction d as [|[k0 v0] d IH]; simpl.
  - apply eqb_neq in Hk. now rewrite Hk.
  - destruct (PyStr.eqb k0 k) eqn:E; simpl.
    + apply eqb_eq in E. subst k0. apply eqb_neq in Hk. now rewrite Hk.
    + now rewrite IH.
Qed.

Lemma dict_lookup_update (k : pystr) (other : list (pystr * pyval)) :
  NoDup (List.map fst other) ->
  forall d,
    dict_lookup k (dict_update d other)
    = match dict_lookup k other with
      | Some v => Some v
      | None => dict_lookup k d
      end.
Proof.
  unfold dict_update.
  induction other as [|[k0 v0] other IH]; intros Hnd d; [reflexivity|].
  simpl in Hnd. inversion Hnd as [|? ? Hnot Hrest]; subst.
  simpl fold_left. rewrite (IH Hrest). simpl dict_lookup.
  destruct (PyStr.eqb k0 k) eqn:E.
  - apply eqb_eq in E. subst k0.
    assert (Hnone : dict_lookup k other = None).
    { clear -Hnot. induction other as [|[k1 v1] other IH]; [reflexivity|].
      simpl in *. destruct (PyStr.eqb k1 k) eqn:E1.
      - apply eqb_eq in E1. subst k1. elim Hnot. now left.
      - apply IH. intros H. apply Hnot. now right. }
    rewrite Hnone. apply dict_lookup_set_same.
  - apply eqb_neq in E.
    now rewrite (dict_lookup_set_other v0 d E).
Qed.

(** X30.  The headers of a client: a header the caller gives is kept with
    the value given, [Content-Type] included, and a header the caller does
    not give has its default, which is [application/json] for
    [Content-Type] and nothing for any other. *)
Theorem headers_override_defaults (base k : pystr)
    (headers : list (pystr * pyval)) :
  NoDup (List.map fst headers) ->
  dict_lookup k (_headers (__init__ base (Some headers)))
  = match dict_lookup k headers with
    | Some v => Some v
    | None =>
        if PyStr.eqb (py "Content-Type") k
        then Some (PStr (py "application/json"))
        else None
    end.
Proof.
  intros Hnd. unfold __init__. cbn [_headers].
  destruct headers as [|kv headers]; [reflexivity|].
  cbv beta iota zeta. now rewrite (@dict_lookup_update k _ Hnd).
Qed.

End ClientFacts.

(* ================================================================== *)
(** * Examples of the further properties *)

Module MoreExamples.

Import Bridge Protocol Commands.

#[local] Existing Instance SdkMore.more_lib.
#[local] Existing Instance Faulty.faulty_driver.

Lemma extract_readable_never_raises_witness :
  fst (extract_readable (Faulty.start Faulty.no_extraction)) = Ok placeholder.
Proof.
  apply (proj2 (BridgeMore.extract_readable_never_raises
                  (Faulty.start Faulty.no_extraction))).
  reflexivity.
Defined.

Lemma driver_failure_is_answered_witness :
  read_loop 30000 [Faulty.goto_line; Samples.close_line]
    (Faulty.start Faulty.unreachable)
  = read_loop 30000 [Samples.close_line]
      (written
         {| session := Faulty.unreachable;
            calls := [Called (Goto (PStr (py "http://example.test"))
                                (py "domcontentloaded") 30000)];
            stdout := [] |}
         (failure (py "TimeoutError: Timeout 30000ms exceeded."))).
Proof.
  apply BridgeMore.driver_failure_is_answered
    with (cmd := Faulty.goto_cmd) (action := PStr (py "Navigate"))
         (e := Faulty.timeout_error);
    reflexivity.
Defined.

Lemma non_object_line_is_answered_witness :
  read_loop 30000 [Faulty.list_line] (Faulty.start Faulty.healthy)
  = read_loop 30000 []
      (written (Faulty.start Faulty.healthy)
         (failure (py "AttributeError: 'list' object has no attribute 'get'"))).
Proof.
  apply BridgeMore.non_object_line_is_answered with (v := Faulty.list_value);
    try reflexivity.
  intros d. discriminate.
Defined.

Lemma falsy_field_is_missing_witness :
  handle_command (PStr (py "Navigate")) Faulty.null_url_cmd 30000
    (Faulty.start Faulty.healthy)
  = (Ok (failure (py "Missing 'url' parameter")), Faulty.start Faulty.healthy).
Proof.
  apply BridgeMore.falsy_field_is_missing
    with (action := py "Navigate") (field := py "url") (v := PNone).
  - left. reflexivity.
  - reflexivity.
  - reflexivity.
Defined.

Lemma type_without_text_witness :
  handle_command (PStr (py "Type")) Faulty.type_null_text_cmd 30000
    (Faulty.start Faulty.healthy)
  = (Ok (failure (py "Missing 'text' parameter")), Faulty.start Faulty.healthy).
Proof.
  apply BridgeMore.type_without_text
    with (selector := PStr (py "#q")) (text := PNone);
    reflexivity.
Defined.

Lemma non_string_action_is_unknown_witness :
  handle_command (PInt 7) Faulty.number_action_cmd 30000
    (Faulty.start Faulty.healthy)
  = (Ok (failure (py "Unknown action: 7")), Faulty.start Faulty.healthy).
Proof.
  apply (BridgeMore.non_string_action_is_unknown (action := PInt 7)).
  intros s. discriminate.
Defined.

Lemma click_falls_back_to_text_witness :
  handle_command (PStr (py "Click")) Faulty.click_cmd 30000
    (Faulty.start Faulty.no_css_match)
  = (Ok (success [(py "clicked", PStr (py "Sign in"));
                  (py "title", PStr (py "Example"));
                  (py "url", PStr (py "about:blank"))]),
     {| session := Faulty.no_css_match;
        calls := [Called (Click (PStr (py "Sign in")) 30000);
                  Called (ClickText (PStr (py "Sign in")) 30000);
                  Called (WaitForLoadState (py "domcontentloaded") 30000);
                  Called Title; Called Url];
        stdout := [] |}).
Proof.
  apply BridgeMore.click_falls_back_to_text
    with (e := Faulty.timeout_error)
         (s1 := Faulty.no_css_match) (s2 := Faulty.no_css_match)
         (s3 := Faulty.no_css_match) (s4 := Faulty.no_css_match);
    reflexivity.
Defined.

Lemma click_reports_text_failure_witness :
  handle_command (PStr (py "Click")) Faulty.click_cmd 30000
    (Faulty.start Faulty.no_match)
  = (Raise Faulty.text_error,
     {| session := Faulty.no_match;
        calls := [Called (Click (PStr (py "Sign in")) 30000);
                  Called (ClickText (PStr (py "Sign in")) 30000)];
        stdout := [] |}).
Proof.
  erewrite BridgeMore.click_reports_text_failure
    with (selector := PStr (py "Sign in"))
         (e1 := Faulty.timeout_error) (e2 := Faulty.text_error)
         (s1 := Faulty.no_match) (s2 := Faulty.no_match);
    reflexivity.
Defined.

Lemma main_output_witness :
  exists unread w' responses,
    main default_args true [Samples.fly_line] (Faulty.start Faulty.healthy)
    = (Ok unread, w')
    /\ [Samples.fly_line] = processed [Samples.fly_line] ++ unread
    /\ stdout w' = [] ++ ready :: responses
    /\ List.length responses = content_lines (processed [Samples.fly_line]).
Proof.
  apply BridgeMore.main_output
    with (w := Faulty.start Faulty.healthy)
         (w1 := snd (startup default_args (Faulty.start Faulty.healthy))).
  reflexivity.
Defined.

Lemma startup_failure_propagates_witness :
  main default_args true [Samples.fly_line] (Faulty.start Faulty.no_browser)
  = (Raise Faulty.launch_error,
     {| session := Faulty.no_browser; calls := [Called Start];
        stdout := [] |})
  /\ stdout {| session := Faulty.no_browser; calls := [Called Start];
               stdout := [] |}
     = stdout (Faulty.start Faulty.no_browser).
Proof.
  apply BridgeMore.startup_failure_propagates. reflexivity.
Defined.

Lemma read_loop_app_witness :
  read_loop 30000 ([Samples.fly_line] ++ [Samples.close_line])
    (Faulty.start Faulty.healthy)
  = read_loop 30000 [Samples.close_line]
      (snd (read_loop 30000 [Samples.fly_line] (Faulty.start Faulty.healthy))).
Proof.
  apply BridgeMore.read_loop_app. reflexivity.
Defined.


Lemma empty_input_falls_back_to_environment_witness :
  Sdk.run SdkMore.echo SdkMore.blank_input Samples.nothing_written
  = Sdk.run SdkMore.echo SdkMore.explicit_input Samples.nothing_written.
Proof.
  apply SdkMoreFacts.empty_input_falls_back_to_environment;
    try reflexivity.
  vm_compute. discriminate.
Defined.

Lemma undecodable_input_exits_witness :
  fst (Sdk.run SdkMore.echo SdkMore.malformed_input Samples.nothing_written)
  = Sdk.Exited 1%Z
  /\ Sdk.stdout
       (snd (Sdk.run SdkMore.echo SdkMore.malformed_input
               Samples.nothing_written))
     = [] ++ [SdkMore.response
                (PStr (py "Error: "
                       ++ exc_msg Samples.json_decode_error))].
Proof.
  apply SdkMoreFacts.undecodable_input_exits
    with (handler := SdkMore.echo_handler);
    try reflexivity.
  - right. reflexivity.
  - vm_compute. discriminate.
Defined.

Lemma non_object_input_exits_witness :
  fst (Sdk.run SdkMore.echo SdkMore.list_input Samples.nothing_written)
  = Sdk.Exited 1%Z
  /\ Sdk.stdout
       (snd (Sdk.run SdkMore.echo SdkMore.list_input
               Samples.nothing_written))
     = [] ++ [SdkMore.response
                (PStr (py "Error: '" ++ type_name Faulty.list_value
                       ++ py "' object has no attribute 'get'"))].
Proof.
  apply SdkMoreFacts.non_object_input_exits
    with (handler := SdkMore.echo_handler);
    try reflexivity.
  - right. reflexivity.
  - vm_compute. discriminate.
  - intros d. discriminate.
Defined.

Lemma setup_failure_exits_witness :
  fst (Sdk.run SdkMore.failing_setup SdkMore.message_input
         Samples.nothing_written)
  = Sdk.Exited 1%Z
  /\ Sdk.stdout
       (snd (Sdk.run SdkMore.failing_setup SdkMore.message_input
               Samples.nothing_written))
     = [] ++ [SdkMore.response
                (PStr (py "Error: " ++ exc_msg Samples.value_error))].
Proof.
  apply SdkMoreFacts.setup_failure_exits
    with (handler := SdkMore.echo_handler);
    reflexivity.
Defined.

Lemma unencodable_text_exits_witness :
  fst (Sdk.run SdkMore.bad_text SdkMore.message_input
         Samples.nothing_written)
  = Sdk.Exited 1%Z
  /\ Sdk.stdout
       (snd (Sdk.run SdkMore.bad_text SdkMore.message_input
               Samples.nothing_written))
     = [] ++ [SdkMore.response
                (PStr (py "Error: Object of type "
                       ++ obj_type SdkMore.set_object
                       ++ py " is not JSON serializable"))].
Proof.
  apply SdkMoreFacts.unencodable_text_exits
    with (handler := fun _ _ =>
                       Ok (PDict [(py "text", PObject SdkMore.set_object)]))
         (data := Samples.message_cmd) (m := PStr (py "hi")) (c := PDict [])
         (d := [(py "text", PObject SdkMore.set_object)])
         (text := PObject SdkMore.set_object);
    try reflexivity.
  - left. reflexivity.
  - vm_compute. discriminate.
Defined.

Lemma metadata_is_kept_when_truthy_witness :
  fst (Sdk.run SdkMore.with_metadata SdkMore.message_input
         Samples.nothing_written)
  = Sdk.Done tt
  /\ Sdk.stdout
       (snd (Sdk.run SdkMore.with_metadata SdkMore.message_input
               Samples.nothing_written))
     = [] ++ [PDict ([(py "type", PStr (py "response"));
                     (py "text", PStr (py "hi"))]
                    ++ if truthy (PDict []) then [(py "metadata", PDict [])]
                       else [])].
Proof.
  apply SdkMoreFacts.metadata_is_kept_when_truthy
    with (handler := fun message _ =>
                       Ok (PDict [(py "text", message);
                                  (py "metadata", PDict [])]))
         (data := Samples.message_cmd) (m := PStr (py "hi")) (c := PDict [])
         (d := [(py "text", PStr (py "hi")); (py "metadata", PDict [])]);
    try reflexivity.
  - left. reflexivity.
  - vm_compute. discriminate.
Defined.

Lemma echo_agent_greets_witness :
  fst (SdkMore.echo_agent SdkMore.message_input Samples.nothing_written)
  = Sdk.Done tt
  /\ Sdk.stdout
       (snd (SdkMore.echo_agent SdkMore.message_input
               Samples.nothing_written))
     = [] ++ [SdkMore.response
                (PStr (py "Hello from Python agent "
                       ++ py_str (PStr (py "unknown"))
                       ++ py "! You said: " ++ py_str (PStr (py "hi"))))].
Proof.
  apply SdkMoreFacts.echo_agent_greets
    with (data := Samples.message_cmd) (c := []);
    try reflexivity.
  vm_compute. discriminate.
Defined.

Lemma echo_agent_rejects_context_witness :
  fst (SdkMore.echo_agent SdkMore.null_context_input Samples.nothing_written)
  = Sdk.Exited 1%Z
  /\ Sdk.stdout
       (snd (SdkMore.echo_agent SdkMore.null_context_input
               Samples.nothing_written))
     = [] ++ [SdkMore.response
                (PStr (py "Error: '" ++ type_name PNone
                       ++ py "' object has no attribute 'get'"))].
Proof.
  apply SdkMoreFacts.echo_agent_rejects_context
    with (data := SdkMore.null_context_value) (m := PStr (py "hi"));
    try reflexivity.
  - vm_compute. discriminate.
  - intros d. discriminate.
Defined.

Lemma teardown_changes_result_only_by_exiting_witness :
  fst (SdkEffects.run SdkEffects.masking Samples.one_message
         Samples.nothing_written)
  = Sdk.Exited 0%Z
  /\ fst (SdkEffects.run (SdkEffects.without_teardown SdkEffects.masking)
            Samples.one_message Samples.nothing_written)
     = Sdk.Exited 1%Z.
Proof.
  split; [|reflexivity].
  rewrite (proj2 (proj2 (SdkEffectsFacts.teardown_changes_result_only_by_exiting
                           SdkEffects.masking Samples.one_message
                           Samples.nothing_written))
             SdkEffects.goodbye);
    [reflexivity|discriminate|reflexivity].
Defined.

Lemma ascii_decoded (b : Client.bytes) :
  b <> [] ->
  forallb (fun c => (c <? 128)%N) b = true ->
  Client.decoded [b] [b].
Proof.
  intros Hne Hascii. split.
  - constructor; [exact Hne|constructor].
  - constructor; [|constructor].
    now apply ClientFacts.utf8_from_ascii.
Defined.

Lemma cut_decoded :
  Client.decoded StreamSamples.cut
    StreamSamples.cut.
Proof.
  split.
  - repeat constructor; vm_compute; discriminate.
  - repeat constructor.
Defined.

Lemma stream_is_independent_of_chunking_witness :
  Client.read_chunks [] StreamSamples.cut
  = Client.read_chunks [] StreamSamples.whole
  /\ Client.read_chunks []
       (StreamSamples.whole ++ StreamSamples.half_character
        :: StreamSamples.whole)
     = {| Client.events := Client.events
                             (Client.read_chunks [] StreamSamples.whole);
          Client.ending := Client.StreamError StreamSamples.unicode_error;
          Client.closed := false |}
  /\ Client.read_chunks [] StreamSamples.accent_cut
     = {| Client.events := [];
          Client.ending :=
            Client.StreamError
              (Client.unicode_decode_error 7 1 195 Client.unexpected_end);
          Client.closed := false |}
  /\ Client.read_chunks [] [StreamSamples.accent]
     = {| Client.events := [PDict [(py "raw", PStr (py "1" ++ [233%N]))]];
          Client.ending := Client.EndOfStream;
          Client.closed := true |}.
Proof.
  split; [|split; [|split; [|reflexivity]]].
  - apply (proj1 ClientFacts.stream_is_independent_of_chunking)
      with (texts1 := StreamSamples.cut) (texts2 := StreamSamples.whole).
    + exact cut_decoded.
    + apply ascii_decoded; [vm_compute; discriminate|reflexivity].
    + vm_compute. reflexivity.
  - rewrite (proj1 (proj2 ClientFacts.stream_is_independent_of_chunking))
      with (texts := StreamSamples.whole) (e := StreamSamples.unicode_error).
    + reflexivity.
    + apply ascii_decoded; [vm_compute; discriminate|reflexivity].
    + vm_compute. discriminate.
    + reflexivity.
  - refine (proj2 (proj2 ClientFacts.stream_is_independent_of_chunking)
              [] [] (py "data: 1") 195%N [[169; 10]%N] _ _ _).
    + split; constructor.
    + reflexivity.
    + reflexivity.
Defined.

Lemma unterminated_line_is_dropped_witness :
  Client.read_chunks [] StreamSamples.unfinished
  = Client.run_of_lines StreamSamples.three_lines
  /\ Client.read_chunks [] StreamSamples.cut
     = Client.read_chunks [] StreamSamples.unfinished.
Proof.
  destruct (@ClientFacts.unterminated_line_is_dropped _
              StreamSamples.unfinished StreamSamples.unfinished
              StreamSamples.three_lines StreamSamples.data_hi)
    as [Hrun Hsame].
  - apply ascii_decoded; [vm_compute; discriminate|reflexivity].
  - repeat constructor; vm_compute; intuition discriminate.
  - vm_compute. intuition discriminate.
  - reflexivity.
  - split; [exact Hrun|].
    apply (Hsame StreamSamples.cut StreamSamples.cut);
      [exact cut_decoded|reflexivity].
Defined.

Lemma sentinel_ends_stream_witness :
  Client.read_chunks []
    StreamSamples.with_sentinel
  = Client.run_of_lines ([StreamSamples.data_hi] ++ [StreamSamples.done])
  /\ Client.closed
       (Client.read_chunks []
          StreamSamples.with_sentinel)
     = false.
Proof.
  apply ClientFacts.sentinel_ends_stream
    with (texts := StreamSamples.with_sentinel)
         (post := Client.unlines [StreamSamples.data_oops]).
  - apply ascii_decoded; [vm_compute; discriminate|reflexivity].
  - repeat constructor; vm_compute; intuition discriminate.
  - vm_compute. intuition discriminate.
  - reflexivity.
  - reflexivity.
Defined.

Lemma more_loads_fails_by_decode_error (text : pystr) (e : exn) :
  SdkMore.more_loads text = Raise e -> exc_type e = py "JSONDecodeError".
Proof.
  unfold SdkMore.more_loads, Faulty.faulty_loads, Samples.sample_loads.
  repeat match goal with
         | |- context [if ?b then _ else _] => destruct b
         end;
    intros [= <-]; reflexivity.
Defined.

Lemma one_event_per_data_line_witness :
  Client.read_chunks [] StreamSamples.whole
  = {| Client.events :=
         List.map Client.event_of
           (List.filter Client.is_data StreamSamples.three_lines);
       Client.ending := Client.EndOfStream;
       Client.closed := true |}.
Proof.
  apply ClientFacts.one_event_per_data_line
    with (texts := StreamSamples.whole).
  - exact more_loads_fails_by_decode_error.
  - apply ascii_decoded; [vm_compute; discriminate|reflexivity].
  - repeat constructor; vm_compute; intuition discriminate.
  - reflexivity.
  - reflexivity.
Defined.

Lemma headers_override_defaults_witness :
  dict_lookup (py "Content-Type")
    (Client._headers
       (Client.__init__ (py "http://localhost:3000/")
          (Some StreamSamples.caller_headers)))
  = match dict_lookup (py "Content-Type") StreamSamples.caller_headers with
    | Some v => Some v
    | None =>
        if PyStr.eqb (py "Content-Type") (py "Content-Type")
        then Some (PStr (py "application/json"))
        else None
    end.
Proof.
  apply ClientFacts.headers_override_defaults.
  repeat constructor; vm_compute; intuition discriminate.
Defined.

End MoreExamples.
